(** * KWayland server: the keyboard binding of a seat

    A shallow embedding of [src/server/keyboard_interface.cpp]
    ([KWayland::Server::KeyboardInterface] and its [Private] part) and the
    properties of its life cycle and of its focus state machine.

    The code is single threaded and talks to three collaborators whose code
    is not part of the sources: the Wayland display (libwayland-server),
    the process (its descriptor table) and Qt (signal connections and
    [Q_ASSERT]).  Every member function becomes a computation in a small
    monad [Exec] that threads the state of the binding and of these
    collaborators, appends the calls that leave the binding to a log, and
    may abort. *)

From stdpp Require Import base decidable option list gmap strings.
From Stdlib Require Import ZArith Lia.

Open Scope Z_scope.

(** ** Wire objects *)

(** The interfaces of the protocol objects that occur in this file. *)
Inductive wl_interface :=
| wl_seat_interface
| wl_surface_interface
| wl_keyboard_interface.

(** [wl_client *]: a connection, named by a number. *)
Definition wl_client := N.

(** [wl_resource *]: the object a client knows by [resource_id], created
    for one interface at one negotiated version.  A null pointer is [None]
    of [option wl_resource]. *)
Record wl_resource := mk_wl_resource {
  resource_client : wl_client;
  resource_interface : wl_interface;
  resource_version : N;
  resource_id : N
}.

#[global] Instance wl_interface_eq_dec : EqDecision wl_interface.
Proof. solve_decision. Defined.

#[global] Instance wl_resource_eq_dec : EqDecision wl_resource.
Proof. solve_decision. Defined.

Definition wl_resource_get_version (r : wl_resource) : N := resource_version r.

Inductive wl_keyboard_keymap_format :=
| WL_KEYBOARD_KEYMAP_FORMAT_NO_KEYMAP
| WL_KEYBOARD_KEYMAP_FORMAT_XKB_V1.

Inductive wl_keyboard_key_state :=
| WL_KEYBOARD_KEY_STATE_RELEASED
| WL_KEYBOARD_KEY_STATE_PRESSED.

(** [wl_array] of [uint32_t]: the elements in order.  [wl_array_add]
    reserves room at the end, and the caller stores the element there. *)
Definition wl_array := list N.
Definition wl_array_init : wl_array := [].
Definition wl_array_add (keys : wl_array) (k : N) : wl_array := keys ++ [k].

(** ** The collaborators of the binding *)

(** [SurfaceInterface *]: a surface is known by its address and by the
    resource its [resource()] returns. *)
Record SurfaceInterface := mk_SurfaceInterface {
  surface_address : N;
  SurfaceInterface_resource : wl_resource
}.

#[global] Instance SurfaceInterface_eq_dec : EqDecision SurfaceInterface.
Proof. solve_decision. Defined.

(** What the binding reads from its [SeatInterface].  Unsigned 32-bit
    values ([quint32]) are [N]; the code copies them and computes nothing
    with them.  A descriptor ([int]) is a [Z]. *)
Record SeatInterface := mk_SeatInterface {
  isKeymapXkbCompatible : bool;
  keymapFileDescriptor : Z;
  keymapSize : N;
  pressedKeys : list N;
  timestamp : N;
  depressedModifiers : N;
  latchedModifiers : N;
  lockedModifiers : N;
  groupModifiers : N;
  lastModifiersSerial : N
}.

(** Modelled from the spec: the wire transport (libwayland-server) is not
    part of the sources.  The display keeps the resources that are alive
    ([objects]) and those among them whose implementation is this keyboard
    binding, with [KeyboardInterface::Private::unbind] as the callback the
    transport runs when the client gives the object up ([implementations]).
    [out_of_memory] says that the next [wl_resource_create] fails. *)
Record Display := mk_Display {
  objects : list wl_resource;
  implementations : list wl_resource;
  out_of_memory : bool
}.

(** The descriptor table of the process: the descriptors that are open,
    and how many the process may have. *)
Record Process := mk_Process {
  open_fds : gset Z;
  fd_limit : nat
}.

(** ** The binding *)

(** [KeyboardInterface::Private].  [seat] stands for the seat the pointer
    refers to, in its current state.  [destroyConnection] is the surface
    whose [QObject::destroyed] signal is connected to the binding through
    the stored handle, [None] when the handle is not connected. *)
Record Private := mk_Private {
  seat : SeatInterface;
  focusedSurface : option SurfaceInterface;
  destroyConnection : option SurfaceInterface;
  resource : option wl_resource
}.

(** [KeyboardInterface::Private::Private(SeatInterface *s)] with the
    default member initialisers. *)
Definition Private_new (s : SeatInterface) : Private :=
  {| seat := s; focusedSurface := None; destroyConnection := None;
     resource := None |}.

Record World := mk_World {
  d : Private;
  display : Display;
  process : Process
}.

Definition set_resource (r : option wl_resource) (p : Private) : Private :=
  {| seat := seat p; focusedSurface := focusedSurface p;
     destroyConnection := destroyConnection p; resource := r |}.

Definition set_focusedSurface (s : option SurfaceInterface) (p : Private)
  : Private :=
  {| seat := seat p; focusedSurface := s;
     destroyConnection := destroyConnection p; resource := resource p |}.

Definition set_destroyConnection (c : option SurfaceInterface) (p : Private)
  : Private :=
  {| seat := seat p; focusedSurface := focusedSurface p;
     destroyConnection := c; resource := resource p |}.

Definition set_seat (s : SeatInterface) (p : Private) : Private :=
  {| seat := s; focusedSurface := focusedSurface p;
     destroyConnection := destroyConnection p; resource := resource p |}.

Definition with_d (f : Private -> Private) (w : World) : World :=
  {| d := f (d w); display := display w; process := process w |}.

Definition with_display (f : Display -> Display) (w : World) : World :=
  {| d := d w; display := f (display w); process := process w |}.

Definition with_process (f : Process -> Process) (w : World) : World :=
  {| d := d w; display := display w; process := f (process w) |}.

(** ** The log and the monad *)

(** The calls that leave the binding, in the order they are made: the
    events and notifications handed to the display for the client, the
    destruction of a resource, the system calls, and the changes of the
    signal connection. *)
Inductive Call :=
| call_wl_resource_post_no_memory (parent : wl_resource)
| call_wl_resource_destroy (r : wl_resource)
| call_wl_keyboard_send_keymap
    (r : wl_resource) (format : wl_keyboard_keymap_format) (fd : Z) (size : N)
| call_wl_keyboard_send_leave (r : wl_resource) (serial : N) (surface : wl_resource)
| call_wl_keyboard_send_enter
    (r : wl_resource) (serial : N) (surface : wl_resource) (keys : wl_array)
| call_wl_keyboard_send_modifiers
    (r : wl_resource) (serial depressed latched locked group : N)
| call_wl_keyboard_send_key
    (r : wl_resource) (serial time key : N) (state : wl_keyboard_key_state)
| call_open (path : string) (fd : Z)
| call_close (fd : Z)
| call_connect_destroyed (sender : SurfaceInterface)
| call_disconnect (sender : option SurfaceInterface).

(** How a call can end other than by returning. *)
Inductive Failure :=
| AssertionFailure
| NullPointerDereference.

Inductive Outcome (A : Type) :=
| Done (a : A) (w : World)
| Aborted (f : Failure).

Arguments Done {A} a w.
Arguments Aborted {A} f.

(** A computation: from the state before to the calls made and either the
    result with the state after, or the failure that stopped it. *)
Definition Exec (A : Type) : Type := World -> list Call * Outcome A.

Definition ret {A} (a : A) : Exec A := fun w => ([], Done a w).

Definition bind {A B} (m : Exec A) (k : A -> Exec B) : Exec B :=
  fun w =>
    match m w with
    | (log, Done a w') => let (log', o) := k a w' in (log ++ log', o)
    | (log, Aborted f) => (log, Aborted f)
    end.

Declare Scope exec_scope.
Delimit Scope exec_scope with exec.
Notation "x <- m ;; k" := (bind m (fun x => k))
  (at level 100, m at next level, right associativity) : exec_scope.
Notation "m ;; k" := (bind m (fun _ => k))
  (at level 100, right associativity) : exec_scope.
Open Scope exec_scope.

Definition get : Exec World := fun w => ([], Done w w).
Definition get_d : Exec Private := fun w => ([], Done (d w) w).
Definition modify (f : World -> World) : Exec unit := fun w => ([], Done tt (f w)).
Definition emit (c : Call) : Exec unit := fun w => ([c], Done tt w).
Definition abort {A} (f : Failure) : Exec A := fun _ => ([], Aborted f).

Definition log_of {A} (r : list Call * Outcome A) : list Call := fst r.
Definition outcome_of {A} (r : list Call * Outcome A) : Outcome A := snd r.

(** Modelled from the spec: [Q_ASSERT] is Qt's; a violated precondition is
    a fatal local assertion failure.  This is the macro as debug builds
    have it; a build that compiles assertions out is not modelled. *)
Definition Q_ASSERT (cond : bool) : Exec unit :=
  if cond then ret tt else abort AssertionFailure.

Definition is_set {A} (p : option A) : bool :=
  match p with Some _ => true | None => false end.

(** ** The calls into the collaborators *)

(** Modelled from the spec: [wl_resource_create] hands out the object
    [id] of [client], or a null pointer when the display cannot allocate
    it. *)
Definition wl_resource_create (client : wl_client) (interface : wl_interface)
    (version id : N) : Exec (option wl_resource) :=
  fun w =>
    if out_of_memory (display w) then ([], Done None w)
    else
      let k := {| resource_client := client; resource_interface := interface;
                  resource_version := version; resource_id := id |} in
      ([], Done (Some k)
                (with_display (fun dsp =>
                   {| objects := k :: objects dsp;
                      implementations := implementations dsp;
                      out_of_memory := out_of_memory dsp |}) w)).

Definition wl_resource_post_no_memory (parent : wl_resource) : Exec unit :=
  emit (call_wl_resource_post_no_memory parent).

(** Modelled from the spec: [wl_resource_set_implementation] with the
    binding as user data and [unbind] as the callback. *)
Definition wl_resource_set_implementation (k : wl_resource) : Exec unit :=
  modify (with_display (fun dsp =>
    {| objects := objects dsp;
       implementations := k :: implementations dsp;
       out_of_memory := out_of_memory dsp |})).

Definition forget (r : wl_resource) (l : list wl_resource) : list wl_resource :=
  filter (fun r' => r' <> r) l.

(** Modelled from the spec: [wl_resource_destroy] is the owner's half of
    the teardown; the display forgets the object, so nothing can be
    dispatched to it afterwards. *)
Definition wl_resource_destroy (r : wl_resource) : Exec unit :=
  emit (call_wl_resource_destroy r);;
  modify (with_display (fun dsp =>
    {| objects := forget r (objects dsp);
       implementations := forget r (implementations dsp);
       out_of_memory := out_of_memory dsp |})).

(** [wl_resource_get_user_data] on a resource of the binding gives back
    the [Private] that [wl_resource_set_implementation] stored; on any
    other resource the pointer is not one to follow. *)
Definition cast (r : wl_resource) : Exec unit :=
  w <- get;;
  if bool_decide (r ∈ implementations (display w)) then ret tt
  else abort NullPointerDereference.

(** The generated senders post an event on a resource; on a null pointer
    there is no resource to post on. *)
Definition post_event (r : option wl_resource) (event : wl_resource -> Call)
  : Exec unit :=
  match r with
  | Some r => emit (event r)
  | None => abort NullPointerDereference
  end.

Definition wl_keyboard_send_keymap (r : option wl_resource)
    (format : wl_keyboard_keymap_format) (fd : Z) (size : N) : Exec unit :=
  post_event r (fun r => call_wl_keyboard_send_keymap r format fd size).

Definition wl_keyboard_send_leave (r : option wl_resource) (serial : N)
    (surface : wl_resource) : Exec unit :=
  post_event r (fun r => call_wl_keyboard_send_leave r serial surface).

Definition wl_keyboard_send_enter (r : option wl_resource) (serial : N)
    (surface : wl_resource) (keys : wl_array) : Exec unit :=
  post_event r (fun r => call_wl_keyboard_send_enter r serial surface keys).

Definition wl_keyboard_send_modifiers (r : option wl_resource)
    (serial depressed latched locked group : N) : Exec unit :=
  post_event r (fun r =>
    call_wl_keyboard_send_modifiers r serial depressed latched locked group).

Definition wl_keyboard_send_key (r : option wl_resource)
    (serial time key : N) (state : wl_keyboard_key_state) : Exec unit :=
  post_event r (fun r => call_wl_keyboard_send_key r serial time key state).

(** The lowest descriptor that is not open, if the table has room. *)
Definition lowest_free_fd (p : Process) : option Z :=
  List.find (fun fd => bool_decide (fd ∉ open_fds p))
            (List.map Z.of_nat (List.seq 0 (fd_limit p))).

(** [open(path, O_RDONLY)] on a file that exists: the lowest free
    descriptor, or -1 when the table is full. *)
Definition open (path : string) : Exec Z :=
  w <- get;;
  match lowest_free_fd (process w) with
  | Some fd =>
      modify (with_process (fun p =>
        {| open_fds := {[ fd ]} ∪ open_fds p; fd_limit := fd_limit p |}));;
      emit (call_open path fd);;
      ret fd
  | None => emit (call_open path (-1));; ret (-1)
  end.

(** [close(fd)]: the descriptor is open no more; on a negative number it
    fails and changes nothing. *)
Definition close (fd : Z) : Exec unit :=
  emit (call_close fd);;
  if bool_decide (0 <= fd) then
    modify (with_process (fun p =>
      {| open_fds := open_fds p ∖ {[ fd ]}; fd_limit := fd_limit p |}))
  else ret tt.

(** [connect(sender, &QObject::destroyed, this, lambda)]: the returned
    handle names the connection to [sender]. *)
Definition connect_destroyed (sender : SurfaceInterface)
  : Exec (option SurfaceInterface) :=
  emit (call_connect_destroyed sender);;
  ret (Some sender).

(** [disconnect(d->destroyConnection)]: the connection behind the stored
    handle is gone. *)
Definition disconnect : Exec unit :=
  p <- get_d;;
  emit (call_disconnect (destroyConnection p));;
  modify (with_d (set_destroyConnection None)).

(** ** KeyboardInterface *)

(** [void KeyboardInterface::Private::sendKeymap(int fd, quint32 size)] *)
Definition sendKeymap_fd_size (fd : Z) (size : N) : Exec unit :=
  p <- get_d;;
  Q_ASSERT (is_set (resource p));;
  wl_keyboard_send_keymap (resource p) WL_KEYBOARD_KEYMAP_FORMAT_XKB_V1 fd size.

(** [void KeyboardInterface::Private::sendKeymap()] *)
Definition sendKeymap : Exec unit :=
  p <- get_d;;
  Q_ASSERT (is_set (resource p));;
  if isKeymapXkbCompatible (seat p) then
    sendKeymap_fd_size (keymapFileDescriptor (seat p)) (keymapSize (seat p))
  else
    nullFd <- open "/dev/null";;
    wl_keyboard_send_keymap (resource p) WL_KEYBOARD_KEYMAP_FORMAT_NO_KEYMAP
                            nullFd 0;;
    close nullFd.

(** [void KeyboardInterface::Private::sendModifiers(depressed, latched,
    locked, group, serial)] *)
Definition sendModifiers_values (depressed latched locked group serial : N)
  : Exec unit :=
  p <- get_d;;
  Q_ASSERT (is_set (resource p));;
  wl_keyboard_send_modifiers (resource p) serial depressed latched locked group.

(** [void KeyboardInterface::Private::sendModifiers()] *)
Definition sendModifiers : Exec unit :=
  p <- get_d;;
  sendModifiers_values (depressedModifiers (seat p)) (latchedModifiers (seat p))
    (lockedModifiers (seat p)) (groupModifiers (seat p))
    (lastModifiersSerial (seat p)).

(** [void KeyboardInterface::Private::createInterfae(wl_client *client,
    wl_resource *parentResource, uint32_t id)] *)
Definition createInterfae (client : wl_client) (parentResource : wl_resource)
    (id : N) : Exec unit :=
  k <- wl_resource_create client wl_keyboard_interface
         (wl_resource_get_version parentResource) id;;
  match k with
  | None => wl_resource_post_no_memory parentResource
  | Some k' =>
      modify (with_d (set_resource (Some k')));;
      wl_resource_set_implementation k';;
      sendKeymap
  end.

(** [void KeyboardInterface::Private::unbind(wl_resource *resource)] *)
Definition unbind (r : wl_resource) : Exec unit :=
  cast r;;
  modify (with_d (set_resource None)).

(** [void KeyboardInterface::Private::releaseCallback(wl_client *client,
    wl_resource *resource)] *)
Definition releaseCallback (client : wl_client) (r : wl_resource) : Exec unit :=
  unbind r.

(** [void KeyboardInterface::setKeymap(int fd, quint32 size)] *)
Definition setKeymap (fd : Z) (size : N) : Exec unit :=
  sendKeymap_fd_size fd size.

(** [KeyboardInterface::~KeyboardInterface()] *)
Definition KeyboardInterface_destructor : Exec unit :=
  p <- get_d;;
  match resource p with
  | Some r => wl_resource_destroy r
  | None => ret tt
  end.

(** The loop of [setFocusedSurface] that copies the pressed keys of the
    seat into a fresh [wl_array]. *)
Definition pressed_keys_array (states : list N) : wl_array :=
  foldl wl_array_add wl_array_init states.

(** [void KeyboardInterface::setFocusedSurface(SurfaceInterface *surface,
    quint32 serial)] *)
Definition setFocusedSurface (surface : option SurfaceInterface) (serial : N)
  : Exec unit :=
  p <- get_d;;
  match focusedSurface p with
  | Some old =>
      wl_keyboard_send_leave (resource p) serial (SurfaceInterface_resource old);;
      disconnect
  | None => ret tt
  end;;
  modify (with_d (set_focusedSurface surface));;
  p <- get_d;;
  match focusedSurface p with
  | None => ret tt
  | Some s =>
      c <- connect_destroyed s;;
      modify (with_d (set_destroyConnection c));;
      let keys := pressed_keys_array (pressedKeys (seat p)) in
      wl_keyboard_send_enter (resource p) serial (SurfaceInterface_resource s) keys;;
      sendModifiers
  end.

(** [void KeyboardInterface::keyPressed(quint32 key, quint32 serial)] *)
Definition keyPressed (key serial : N) : Exec unit :=
  p <- get_d;;
  Q_ASSERT (is_set (focusedSurface p));;
  wl_keyboard_send_key (resource p) serial (timestamp (seat p)) key
                       WL_KEYBOARD_KEY_STATE_PRESSED.

(** [void KeyboardInterface::keyReleased(quint32 key, quint32 serial)] *)
Definition keyReleased (key serial : N) : Exec unit :=
  p <- get_d;;
  Q_ASSERT (is_set (focusedSurface p));;
  wl_keyboard_send_key (resource p) serial (timestamp (seat p)) key
                       WL_KEYBOARD_KEY_STATE_RELEASED.

(** [void KeyboardInterface::updateModifiers(depressed, latched, locked,
    group, serial)] *)
Definition updateModifiers (depressed latched locked group serial : N)
  : Exec unit :=
  p <- get_d;;
  Q_ASSERT (is_set (focusedSurface p));;
  sendModifiers_values depressed latched locked group serial.

(** [SurfaceInterface *KeyboardInterface::focusedSurface() const] *)
Definition KeyboardInterface_focusedSurface (w : World)
  : option SurfaceInterface :=
  focusedSurface (d w).

(** [wl_resource *KeyboardInterface::resource() const] *)
Definition KeyboardInterface_resource (w : World) : option wl_resource :=
  resource (d w).

(** The lambda that [setFocusedSurface] connects to the [destroyed]
    signal of the focused surface. *)
Definition focused_surface_destroyed : Exec unit :=
  modify (with_d (set_focusedSurface None)).

(** ** What the collaborators do to the binding *)

(** Modelled from the spec: the transport runs the unbind callback of a
    resource when the client gives the object up or its connection drops,
    and only for a resource it still knows; the resource is gone
    afterwards. *)
Definition transport_unbind (r : wl_resource) : Exec unit :=
  w <- get;;
  if bool_decide (r ∈ implementations (display w)) then
    unbind r;;
    modify (with_display (fun dsp =>
      {| objects := forget r (objects dsp);
         implementations := forget r (implementations dsp);
         out_of_memory := out_of_memory dsp |}))
  else ret tt.

(** Modelled from the spec: the transport hands the [release] request of
    a client (since version 3) to the entry of [s_interface], for a
    resource it knows. *)
Definition transport_release (r : wl_resource) : Exec unit :=
  w <- get;;
  if bool_decide (r ∈ implementations (display w)) then
    releaseCallback (resource_client r) r
  else ret tt.

(** The owner of a surface destroys it: [QObject::destroyed] runs the
    lambda if the binding is connected to this surface, and the
    connection ends with its sender. *)
Definition SurfaceInterface_destroyed (s : SurfaceInterface) : Exec unit :=
  p <- get_d;;
  if bool_decide (destroyConnection p = Some s) then
    focused_surface_destroyed;;
    modify (with_d (set_destroyConnection None))
  else ret tt.

(** What can happen to a binding while it lives: the calls of its owner
    and the events of its collaborators. *)
Inductive Action :=
| do_createInterfae (client : wl_client) (parentResource : wl_resource) (id : N)
| do_setKeymap (fd : Z) (size : N)
| do_setFocusedSurface (surface : option SurfaceInterface) (serial : N)
| do_keyPressed (key serial : N)
| do_keyReleased (key serial : N)
| do_updateModifiers (depressed latched locked group serial : N)
| client_release (r : wl_resource)
| client_gone (r : wl_resource)
| surface_destroyed (s : SurfaceInterface)
| seat_changed (s : SeatInterface).

Definition perform (a : Action) : Exec unit :=
  match a with
  | do_createInterfae client parentResource id =>
      createInterfae client parentResource id
  | do_setKeymap fd size => setKeymap fd size
  | do_setFocusedSurface surface serial => setFocusedSurface surface serial
  | do_keyPressed key serial => keyPressed key serial
  | do_keyReleased key serial => keyReleased key serial
  | do_updateModifiers depressed latched locked group serial =>
      updateModifiers depressed latched locked group serial
  | client_release r => transport_release r
  | client_gone r => transport_unbind r
  | surface_destroyed s => SurfaceInterface_destroyed s
  | seat_changed s => modify (with_d (set_seat s))
  end.

(** The actions one after the other; the first that aborts ends the run. *)
Fixpoint run (acts : list Action) : Exec unit :=
  match acts with
  | [] => ret tt
  | a :: acts' => perform a;; run acts'
  end.

(** A new binding, [new KeyboardInterface(seat)], in a given display and
    process. *)
Definition initial (s : SeatInterface) (dsp : Display) (proc : Process) : World :=
  {| d := Private_new s; display := dsp; process := proc |}.

(** ** Reading a log *)

Definition is_keymap (c : Call) : bool :=
  match c with call_wl_keyboard_send_keymap _ _ _ _ => true | _ => false end.

Definition is_leave (c : Call) : bool :=
  match c with call_wl_keyboard_send_leave _ _ _ => true | _ => false end.

Definition is_enter (c : Call) : bool :=
  match c with call_wl_keyboard_send_enter _ _ _ _ => true | _ => false end.

Definition is_destroy (c : Call) : bool :=
  match c with call_wl_resource_destroy _ => true | _ => false end.

Definition is_connect (s : SurfaceInterface) (c : Call) : bool :=
  match c with
  | call_connect_destroyed s' => bool_decide (s' = s)
  | _ => false
  end.

Definition is_enter_of (s : SurfaceInterface) (c : Call) : bool :=
  match c with
  | call_wl_keyboard_send_enter _ _ surface _ =>
      bool_decide (surface = SurfaceInterface_resource s)
  | _ => false
  end.

(** The focus periods a log describes, read from the state [cur] the
    client is in (the surface it was last told to have entered, if it was
    not told to have left it since): a leave is for the surface of the
    running period and ends it, an enter starts a period and needs the
    one before to have ended. *)
Fixpoint focus_periods (cur : option wl_resource) (log : list Call) : bool :=
  match log with
  | [] => true
  | call_wl_keyboard_send_leave _ _ surface :: log' =>
      match cur with
      | Some s => bool_decide (surface = s) && focus_periods None log'
      | None => false
      end
  | call_wl_keyboard_send_enter _ _ surface _ :: log' =>
      match cur with
      | Some _ => false
      | None => focus_periods (Some surface) log'
      end
  | _ :: log' => focus_periods cur log'
  end.

(** The state of the client after the log. *)
Fixpoint focus_after (cur : option wl_resource) (log : list Call)
  : option wl_resource :=
  match log with
  | [] => cur
  | call_wl_keyboard_send_leave _ _ _ :: log' => focus_after None log'
  | call_wl_keyboard_send_enter _ _ surface _ :: log' =>
      focus_after (Some surface) log'
  | _ :: log' => focus_after cur log'
  end.

(** A sequence of [setFocusedSurface] calls. *)
Definition focus_calls (calls : list (option SurfaceInterface * N))
  : list Action :=
  List.map (fun c => do_setFocusedSurface (fst c) (snd c)) calls.

(** The position of the first call of a log that [f] accepts. *)
Fixpoint index_of (f : Call -> bool) (log : list Call) : option nat :=
  match log with
  | [] => None
  | c :: log' => if f c then Some O else S <$> index_of f log'
  end.

(** How many calls of a log [f] accepts. *)
Definition count (f : Call -> bool) (log : list Call) : nat :=
  length (List.filter f log).

(** [precedes f g log]: the log has a call that [f] accepts and one that
    [g] accepts, and the first of the former comes before the first of
    the latter. *)
Definition precedes (f g : Call -> bool) (log : list Call) : bool :=
  match index_of f log, index_of g log with
  | Some i, Some j => (i <? j)%nat
  | _, _ => false
  end.

(** The descriptor [open] returns in a given process. *)
Definition opened_fd (p : Process) : Z :=
  match lowest_free_fd p with
  | Some fd => fd
  | None => -1
  end.

(** The resource [createInterfae] asks the display for. *)
Definition keyboard_resource (client : wl_client) (parentResource : wl_resource)
    (id : N) : wl_resource :=
  {| resource_client := client; resource_interface := wl_keyboard_interface;
     resource_version := wl_resource_get_version parentResource;
     resource_id := id |}.

(** The destroy connection of a binding follows its focus: the binding is
    connected to the surface that has the focus, and to no other. *)
Definition connection_follows_focus (w : World) : Prop :=
  destroyConnection (d w) = focusedSurface (d w).

(** A computation that, when it returns, has left the focus and the
    destroy connection of the binding as they were. *)
Definition keeps_focus {A} (m : Exec A) : Prop :=
  forall w log a w',
    m w = (log, Done a w') ->
    focusedSurface (d w') = focusedSurface (d w)
    /\ destroyConnection (d w') = destroyConnection (d w).

(** The reading of the unbind callback under which it also ends the
    subscription to the focused surface. *)
Definition unbind_clears_subscription (r : wl_resource) (w : World) : Prop :=
  exists w', unbind r w = ([], Done tt w')
    /\ resource (d w') = None /\ destroyConnection (d w') = None.

(** The reading of [setFocusedSurface] under which the binding subscribes
    to the destruction of the new surface only once the enter event for
    it has been handed to the display. *)
Definition subscribes_after_enter (w : World) (s : SurfaceInterface)
    (serial : N) : Prop :=
  precedes (is_enter_of s) (is_connect s)
           (log_of (setFocusedSurface (Some s) serial w)) = true.

Definition is_open (c : Call) : bool :=
  match c with call_open _ _ => true | _ => false end.

Definition is_close (c : Call) : bool :=
  match c with call_close _ => true | _ => false end.

(** The resource a call posts an event on, for the calls that post one. *)
Definition event_target (c : Call) : option wl_resource :=
  match c with
  | call_wl_keyboard_send_keymap r _ _ _
  | call_wl_keyboard_send_leave r _ _
  | call_wl_keyboard_send_enter r _ _ _
  | call_wl_keyboard_send_modifiers r _ _ _ _ _
  | call_wl_keyboard_send_key r _ _ _ _ => Some r
  | _ => None
  end.

(** The first call of a log that posts an event. *)
Definition first_event (log : list Call) : option Call :=
  List.find (fun c => is_set (event_target c)) log.

(** The stored handle of a binding, if it has one, is a keyboard resource
    that the display knows as one of the binding. *)
Definition handle_registered (w : World) : Prop :=
  forall r, resource (d w) = Some r ->
    r ∈ implementations (display w)
    /\ resource_interface r = wl_keyboard_interface.

(** One for a focus period that is running, none otherwise. *)
Definition open_period {A} (focus : option A) : nat :=
  if is_set focus then 1%nat else 0%nat.


(** ** Scenarios *)

Module Scenario.

Definition seat0 : SeatInterface :=
  {| isKeymapXkbCompatible := true; keymapFileDescriptor := 3;
     keymapSize := 1024; pressedKeys := [30%N; 31%N]; timestamp := 500;
     depressedModifiers := 1; latchedModifiers := 0; lockedModifiers := 2;
     groupModifiers := 0; lastModifiersSerial := 9 |}.

Definition seat1 : SeatInterface :=
  {| isKeymapXkbCompatible := false; keymapFileDescriptor := 3;
     keymapSize := 1024; pressedKeys := []; timestamp := 501;
     depressedModifiers := 0; latchedModifiers := 0; lockedModifiers := 0;
     groupModifiers := 0; lastModifiersSerial := 9 |}.

Definition C : wl_client := 1%N.

Definition seat_resource : wl_resource :=
  {| resource_client := C; resource_interface := wl_seat_interface;
     resource_version := 4; resource_id := 5 |}.

Definition H : wl_resource :=
  {| resource_client := C; resource_interface := wl_keyboard_interface;
     resource_version := 4; resource_id := 7 |}.

Definition A : SurfaceInterface :=
  {| surface_address := 100;
     SurfaceInterface_resource :=
       {| resource_client := C; resource_interface := wl_surface_interface;
          resource_version := 4; resource_id := 11 |} |}.

Definition B : SurfaceInterface :=
  {| surface_address := 200;
     SurfaceInterface_resource :=
       {| resource_client := C; resource_interface := wl_surface_interface;
          resource_version := 4; resource_id := 12 |} |}.

Definition display0 : Display :=
  {| objects := [seat_resource; SurfaceInterface_resource A;
                 SurfaceInterface_resource B];
     implementations := []; out_of_memory := false |}.

Definition display_full : Display :=
  {| objects := objects display0; implementations := [];
     out_of_memory := true |}.

(** Standard streams and the keymap of the seat are open. *)
Definition process0 : Process :=
  {| open_fds := {[ 0; 1; 2; 3 ]}; fd_limit := 16 |}.

(** The same descriptors open in a process that may have no more. *)
Definition process_full : Process :=
  {| open_fds := {[ 0; 1; 2; 3 ]}; fd_limit := 4 |}.

Definition unbound : World := initial seat0 display0 process0.

(** The binding after [createInterfae(C, seat_resource, 7)]. *)
Definition bound : World :=
  {| d := set_resource (Some H) (Private_new seat0);
     display := {| objects := H :: objects display0; implementations := [H];
                   out_of_memory := false |};
     process := process0 |}.

(** The binding after [setFocusedSurface(A, 10)] on top of that. *)
Definition focused_A : World :=
  with_d (fun p => set_destroyConnection (Some A) (set_focusedSurface (Some A) p))
         bound.

End Scenario.

(** Unfolds a computation down to its log and outcome. *)
Ltac exec :=
  cbv [setFocusedSurface keyPressed keyReleased updateModifiers createInterfae
       unbind releaseCallback setKeymap sendKeymap sendKeymap_fd_size
       sendModifiers sendModifiers_values KeyboardInterface_destructor
       focused_surface_destroyed SurfaceInterface_destroyed
       transport_unbind transport_release cast
       wl_resource_create wl_resource_post_no_memory
       wl_resource_set_implementation wl_resource_destroy
       wl_keyboard_send_keymap wl_keyboard_send_leave wl_keyboard_send_enter
       wl_keyboard_send_modifiers wl_keyboard_send_key post_event
       connect_destroyed disconnect open close Q_ASSERT is_set
       bind ret get get_d modify emit abort
       with_d with_display with_process
       set_resource set_focusedSurface set_destroyConnection set_seat
       d display process seat focusedSurface destroyConnection resource
       objects implementations out_of_memory
       log_of outcome_of fst snd app];
  cbv beta iota.

(** * Properties *)

(** ** The monad and the log *)

Lemma bind_done {A B} (m : Exec A) (k : A -> Exec B) w log a w' :
  m w = (log, Done a w') ->
  bind m k w = (log ++ log_of (k a w'), outcome_of (k a w')).
Proof.
  intros Hm. unfold bind. rewrite Hm. destruct (k a w'); reflexivity.
Qed.

Lemma pressed_keys_array_spec states : pressed_keys_array states = states.
Proof.
  unfold pressed_keys_array, wl_array_init.
  change states with ([] ++ states) at 2.
  generalize (@nil N). induction states as [|k states IH]; intros acc; simpl.
  - symmetry. apply app_nil_r.
  - rewrite IH. unfold wl_array_add. rewrite <- app_assoc. reflexivity.
Qed.

Lemma focus_periods_app cur log1 log2 :
  focus_periods cur (log1 ++ log2)
  = focus_periods cur log1 && focus_periods (focus_after cur log1) log2.
Proof.
  revert cur. induction log1 as [|c log1 IH]; intros cur; [reflexivity|].
  destruct c; simpl; try apply IH.
  - destruct cur as [s|]; [|reflexivity].
    rewrite IH. apply andb_assoc.
  - destruct cur; [reflexivity|]. apply IH.
Qed.

(** ** One call of [setFocusedSurface] *)

(** What a call does on a bound binding, by the focus before and the
    surface asked for. *)
Lemma setFocusedSurface_bound w r surface serial :
  resource (d w) = Some r ->
  setFocusedSurface surface serial w =
  (match focusedSurface (d w) with
   | Some old =>
       [call_wl_keyboard_send_leave r serial (SurfaceInterface_resource old);
        call_disconnect (destroyConnection (d w))]
   | None => []
   end ++
   match surface with
   | Some s =>
       [call_connect_destroyed s;
        call_wl_keyboard_send_enter r serial (SurfaceInterface_resource s)
          (pressedKeys (seat (d w)));
        call_wl_keyboard_send_modifiers r (lastModifiersSerial (seat (d w)))
          (depressedModifiers (seat (d w))) (latchedModifiers (seat (d w)))
          (lockedModifiers (seat (d w))) (groupModifiers (seat (d w)))]
   | None => []
   end,
   Done tt
     (with_d (fun p =>
        {| seat := seat p; focusedSurface := surface;
           destroyConnection :=
             match surface, focusedSurface p with
             | Some s, _ => Some s
             | None, Some _ => None
             | None, None => destroyConnection p
             end;
           resource := resource p |}) w)).
Proof.
  intros Hr. destruct w as [[st foc conn res] dsp proc]. simpl in Hr. subst res.
  destruct foc as [old|], surface as [s|]; exec;
    rewrite ?pressed_keys_array_spec; reflexivity.
Qed.

Lemma setFocusedSurface_keeps_resource w r surface serial :
  resource (d w) = Some r ->
  exists w', setFocusedSurface surface serial w
             = (log_of (setFocusedSurface surface serial w), Done tt w')
    /\ resource (d w') = Some r
    /\ focusedSurface (d w') = surface.
Proof.
  intros Hr. rewrite (setFocusedSurface_bound w r surface serial Hr).
  eexists. split; [reflexivity|]. simpl. auto.
Qed.

(** C8: with no surface focused, [setFocusedSurface(nullptr, serial)]
    makes no call at all (no leave, no enter, no modifiers) and leaves
    the binding and its collaborators as they were; this holds for a
    binding with or without a resource. *)
Theorem setFocusedSurface_null_unfocused_noop (w : World) (serial : N) :
  focusedSurface (d w) = None ->
  setFocusedSurface None serial w = ([], Done tt w).
Proof.
  destruct w as [[st foc conn res] dsp proc]. simpl. intros ->.
  exec. reflexivity.
Qed.

Lemma setFocusedSurface_null_unfocused_noop_witness :
  setFocusedSurface None 12 Scenario.bound = ([], Done tt Scenario.bound).
Proof.
  apply (setFocusedSurface_null_unfocused_noop Scenario.bound 12). reflexivity.
Defined.

(** C6: with no surface focused, [keyPressed], [keyReleased] and
    [updateModifiers] each stop at their [Q_ASSERT(d->focusedSurface)]:
    the call ends in an assertion failure and nothing has been sent. *)
Theorem key_delivery_requires_focus (w : World)
    (key serial depressed latched locked group : N) :
  focusedSurface (d w) = None ->
  keyPressed key serial w = ([], Aborted AssertionFailure)
  /\ keyReleased key serial w = ([], Aborted AssertionFailure)
  /\ updateModifiers depressed latched locked group serial w
     = ([], Aborted AssertionFailure).
Proof.
  destruct w as [[st foc conn res] dsp proc]. simpl. intros ->.
  repeat split; exec; reflexivity.
Qed.

Lemma key_delivery_requires_focus_witness :
  keyPressed 30 20 Scenario.bound = ([], Aborted AssertionFailure)
  /\ keyReleased 30 20 Scenario.bound = ([], Aborted AssertionFailure)
  /\ updateModifiers 1 0 2 0 20 Scenario.bound = ([], Aborted AssertionFailure).
Proof.
  apply (key_delivery_requires_focus Scenario.bound 30 20 1 0 2 0). reflexivity.
Defined.

(** With a surface focused the same calls go through: the assertion is
    what keeps the event back, not the absence of a sender. *)
Lemma keyPressed_focused w r s key serial :
  resource (d w) = Some r -> focusedSurface (d w) = Some s ->
  keyPressed key serial w
  = ([call_wl_keyboard_send_key r serial (timestamp (seat (d w))) key
        WL_KEYBOARD_KEY_STATE_PRESSED], Done tt w).
Proof.
  destruct w as [[st foc conn res] dsp proc]. simpl. intros -> ->.
  exec. reflexivity.
Qed.

(** C5: when the display cannot allocate the resource, [createInterfae]
    posts the out-of-memory notification on the parent resource and does
    nothing else: no keymap event is sent and the binding (its stored
    handle included, null if it was null) is as before. *)
Theorem createInterfae_no_memory (w : World) (client : wl_client)
    (parentResource : wl_resource) (id : N) :
  out_of_memory (display w) = true ->
  exists w',
    createInterfae client parentResource id w
    = ([call_wl_resource_post_no_memory parentResource], Done tt w')
    /\ w' = w
    /\ count is_keymap (log_of (createInterfae client parentResource id w)) = 0%nat
    /\ (KeyboardInterface_resource w = None ->
        KeyboardInterface_resource w' = None).
Proof.
  intros Hoom. exists w.
  destruct w as [p [objs impls oom] proc]. simpl in Hoom. subst oom.
  split; [exec; reflexivity|]. auto.
Qed.

Lemma createInterfae_no_memory_witness :
  exists w',
    createInterfae Scenario.C Scenario.seat_resource 7
      (initial Scenario.seat0 Scenario.display_full Scenario.process0)
    = ([call_wl_resource_post_no_memory Scenario.seat_resource], Done tt w')
    /\ w' = initial Scenario.seat0 Scenario.display_full Scenario.process0
    /\ count is_keymap
         (log_of (createInterfae Scenario.C Scenario.seat_resource 7
                    (initial Scenario.seat0 Scenario.display_full
                       Scenario.process0))) = 0%nat
    /\ (KeyboardInterface_resource
          (initial Scenario.seat0 Scenario.display_full Scenario.process0) = None ->
        KeyboardInterface_resource w' = None).
Proof.
  apply (createInterfae_no_memory
           (initial Scenario.seat0 Scenario.display_full Scenario.process0)
           Scenario.C Scenario.seat_resource 7).
  reflexivity.
Defined.

(** ** Teardown *)

Lemma unbind_registered w r :
  r ∈ implementations (display w) ->
  unbind r w = ([], Done tt (with_d (set_resource None) w)).
Proof.
  intros Hin. destruct w as [p dsp proc]. exec.
  rewrite bool_decide_eq_true_2 by exact Hin. reflexivity.
Qed.

Lemma destructor_without_resource w :
  resource (d w) = None -> KeyboardInterface_destructor w = ([], Done tt w).
Proof.
  destruct w as [[st foc conn res] dsp proc]. simpl. intros ->.
  exec. reflexivity.
Qed.

Lemma not_elem_of_forget r l : r ∉ forget r l.
Proof.
  unfold forget. intros Hin. apply list_elem_of_filter in Hin.
  destruct Hin as [Hne _]. apply Hne. reflexivity.
Qed.

(** C3, as the code has it: the unbind callback of a resource of the
    binding sets the stored handle to null and does nothing else.  It
    makes no call (so it does not destroy the handle), and it leaves the
    focused surface, the destroy connection, the display and the process
    as they were. *)
Theorem unbind_clears_handle_only (w : World) (r : wl_resource) :
  r ∈ implementations (display w) ->
  exists w',
    unbind r w = ([], Done tt w')
    /\ resource (d w') = None
    /\ focusedSurface (d w') = focusedSurface (d w)
    /\ destroyConnection (d w') = destroyConnection (d w)
    /\ display w' = display w
    /\ process w' = process w.
Proof.
  intros Hin. eexists. split; [apply unbind_registered, Hin|].
  destruct w as [[st foc conn res] dsp proc]. simpl. auto.
Qed.

Lemma unbind_clears_handle_only_witness :
  exists w',
    unbind Scenario.H Scenario.focused_A = ([], Done tt w')
    /\ resource (d w') = None
    /\ focusedSurface (d w') = focusedSurface (d Scenario.focused_A)
    /\ destroyConnection (d w') = destroyConnection (d Scenario.focused_A)
    /\ display w' = display Scenario.focused_A
    /\ process w' = process Scenario.focused_A.
Proof.
  apply (unbind_clears_handle_only Scenario.focused_A Scenario.H).
  compute_done.
Defined.

(** C3, as the claim has it, fails: on a binding that has the focus on a
    surface, the connection to that surface is still there after the
    unbind callback. *)
Lemma unbind_keeps_subscription :
  ~ unbind_clears_subscription Scenario.H Scenario.focused_A.
Proof.
  intros (w' & Hrun & _ & Hconn).
  assert (Hin : Scenario.H ∈ implementations (display Scenario.focused_A))
    by compute_done.
  rewrite (unbind_registered _ _ Hin) in Hrun.
  injection Hrun as <-. discriminate Hconn.
Qed.

Lemma transport_release_registered w r :
  r ∈ implementations (display w) ->
  transport_release r w = ([], Done tt (with_d (set_resource None) w)).
Proof.
  intros Hin. unfold transport_release, get.
  erewrite bind_done by reflexivity.
  rewrite bool_decide_eq_true_2 by exact Hin.
  unfold releaseCallback. rewrite (unbind_registered _ _ Hin). reflexivity.
Qed.

Lemma transport_unbind_registered w r :
  r ∈ implementations (display w) ->
  transport_unbind r w
  = ([], Done tt
           (with_display (fun dsp =>
              {| objects := forget r (objects dsp);
                 implementations := forget r (implementations dsp);
                 out_of_memory := out_of_memory dsp |})
              (with_d (set_resource None) w))).
Proof.
  intros Hin. unfold transport_unbind, get.
  erewrite bind_done by reflexivity.
  rewrite bool_decide_eq_true_2 by exact Hin.
  erewrite bind_done by (apply unbind_registered, Hin). reflexivity.
Qed.

(** C10: the [release] request and the unbind callback do the same to a
    bound binding.  [releaseCallback] is [unbind] on the same resource;
    whether the transport delivers a release request or runs the unbind
    callback, no call is made and the binding ends up in the same state,
    which is the state before with the stored handle set to null.  The
    release request does not destroy the resource: the display still
    knows it afterwards.  The destructor that runs after either finds no
    handle and destroys nothing. *)
Theorem release_same_as_unbind (w : World) (client : wl_client)
    (r : wl_resource) :
  r ∈ implementations (display w) ->
  releaseCallback client r w = unbind r w
  /\ exists w1 w2,
      transport_release r w = ([], Done tt w1)
      /\ transport_unbind r w = ([], Done tt w2)
      /\ d w1 = set_resource None (d w)
      /\ d w2 = d w1
      /\ display w1 = display w
      /\ KeyboardInterface_destructor w1 = ([], Done tt w1)
      /\ KeyboardInterface_destructor w2 = ([], Done tt w2).
Proof.
  intros Hin. split; [reflexivity|].
  eexists. eexists.
  split; [apply transport_release_registered, Hin|].
  split; [apply transport_unbind_registered, Hin|].
  repeat split; apply destructor_without_resource; reflexivity.
Qed.

Lemma release_same_as_unbind_witness :
  releaseCallback Scenario.C Scenario.H Scenario.bound
  = unbind Scenario.H Scenario.bound
  /\ exists w1 w2,
      transport_release Scenario.H Scenario.bound = ([], Done tt w1)
      /\ transport_unbind Scenario.H Scenario.bound = ([], Done tt w2)
      /\ d w1 = set_resource None (d Scenario.bound)
      /\ d w2 = d w1
      /\ display w1 = display Scenario.bound
      /\ KeyboardInterface_destructor w1 = ([], Done tt w1)
      /\ KeyboardInterface_destructor w2 = ([], Done tt w2).
Proof.
  apply (release_same_as_unbind Scenario.bound Scenario.C Scenario.H).
  compute_done.
Defined.

(** C9: the two ways a bound binding loses its resource exclude each
    other.  When the owner destroys the binding first, the destructor
    makes exactly one call, the destruction of the stored handle; the
    display then knows the resource no more, so the transport has no
    unbind callback left to run for it.  When the transport runs the
    unbind callback first, the handle is null afterwards and the
    destructor makes no call. *)
Theorem teardown_paths_exclusive (w : World) (r : wl_resource) :
  resource (d w) = Some r ->
  r ∈ implementations (display w) ->
  (exists w',
     KeyboardInterface_destructor w = ([call_wl_resource_destroy r], Done tt w')
     /\ count is_destroy (log_of (KeyboardInterface_destructor w)) = 1%nat
     /\ (r ∉ objects (display w'))
     /\ (r ∉ implementations (display w'))
     /\ transport_unbind r w' = ([], Done tt w'))
  /\ (exists w',
        transport_unbind r w = ([], Done tt w')
        /\ resource (d w') = None
        /\ (r ∉ implementations (display w'))
        /\ KeyboardInterface_destructor w' = ([], Done tt w')).
Proof.
  intros Hr Hin. split.
  - destruct w as [[st foc conn res] [objs impls oom] proc].
    simpl in Hr, Hin. subst res.
    eexists. split; [exec; reflexivity|]. simpl.
    split; [reflexivity|].
    split; [apply not_elem_of_forget|].
    split; [apply not_elem_of_forget|].
    exec. rewrite bool_decide_eq_false_2 by apply not_elem_of_forget.
    reflexivity.
  - eexists. split; [apply transport_unbind_registered, Hin|]. simpl.
    split; [reflexivity|].
    split; [apply not_elem_of_forget|].
    apply destructor_without_resource. reflexivity.
Qed.

Lemma teardown_paths_exclusive_witness :
  (exists w',
     KeyboardInterface_destructor Scenario.bound
     = ([call_wl_resource_destroy Scenario.H], Done tt w')
     /\ count is_destroy (log_of (KeyboardInterface_destructor Scenario.bound))
        = 1%nat
     /\ (Scenario.H ∉ objects (display w'))
     /\ (Scenario.H ∉ implementations (display w'))
     /\ transport_unbind Scenario.H w' = ([], Done tt w'))
  /\ (exists w',
        transport_unbind Scenario.H Scenario.bound = ([], Done tt w')
        /\ resource (d w') = None
        /\ (Scenario.H ∉ implementations (display w'))
        /\ KeyboardInterface_destructor w' = ([], Done tt w')).
Proof.
  apply (teardown_paths_exclusive Scenario.bound Scenario.H).
  - reflexivity.
  - compute_done.
Defined.

(** ** Creation *)

Lemma lowest_free_fd_spec p fd :
  lowest_free_fd p = Some fd -> (fd ∉ open_fds p) /\ 0 <= fd.
Proof.
  unfold lowest_free_fd. intros Hfind.
  apply List.find_some in Hfind. destruct Hfind as [Hin Hfree].
  split.
  - apply bool_decide_eq_true_1 in Hfree. exact Hfree.
  - apply List.in_map_iff in Hin. destruct Hin as (n & <- & _). lia.
Qed.

(** [open] followed by [close] of what it returned leaves the descriptor
    table as it was, whether [open] found a free descriptor or not. *)
Lemma open_close_restores p :
  match lowest_free_fd p with
  | Some fd =>
      {| open_fds := ({[ fd ]} ∪ open_fds p) ∖ {[ fd ]}; fd_limit := fd_limit p |}
  | None => p
  end = p.
Proof.
  destruct (lowest_free_fd p) as [fd|] eqn:E; [|reflexivity].
  apply lowest_free_fd_spec in E. destruct E as [Hfree _].
  destruct p as [fds lim]. simpl in *. f_equal.
  apply set_eq. intros x. rewrite elem_of_difference, elem_of_union.
  rewrite elem_of_singleton. split; [tauto|].
  intros Hx. split; [right; exact Hx|]. intros ->. exact (Hfree Hx).
Qed.




(** That call is a create that succeeds. *)
Example create_table_full_succeeds :
  exists w',
    outcome_of (createInterfae Scenario.C Scenario.seat_resource 7
                  (initial Scenario.seat1 Scenario.display0
                     Scenario.process_full)) = Done tt w'
    /\ KeyboardInterface_resource w' = Some Scenario.H.
Proof. eexists. split; vm_compute; reflexivity. Qed.

(** The scenario of the specification: client C, version 4, id 7, and a
    seat with a compatible keymap (descriptor 3, size 1024). *)
Example create_compatible_scenario :
  createInterfae Scenario.C Scenario.seat_resource 7 Scenario.unbound
  = ([call_wl_keyboard_send_keymap Scenario.H WL_KEYBOARD_KEYMAP_FORMAT_XKB_V1
        3 1024],
     Done tt Scenario.bound).
Proof. reflexivity. Qed.

(** With the standard streams and the keymap of the seat open, the
    placeholder is descriptor 4. *)
Example create_incompatible_scenario :
  log_of (createInterfae Scenario.C Scenario.seat_resource 7
            (initial Scenario.seat1 Scenario.display0 Scenario.process0))
  = [call_open "/dev/null" 4;
     call_wl_keyboard_send_keymap Scenario.H WL_KEYBOARD_KEYMAP_FORMAT_NO_KEYMAP
       4 0;
     call_close 4].
Proof. vm_compute. reflexivity. Qed.

(** When the descriptor table is full, [open] fails; the event then
    carries -1, and the table is untouched. *)
Example create_incompatible_table_full :
  log_of (createInterfae Scenario.C Scenario.seat_resource 7
            (initial Scenario.seat1 Scenario.display0
               {| open_fds := {[ 0; 1; 2; 3 ]}; fd_limit := 4 |}))
  = [call_open "/dev/null" (-1);
     call_wl_keyboard_send_keymap Scenario.H WL_KEYBOARD_KEYMAP_FORMAT_NO_KEYMAP
       (-1) 0;
     call_close (-1)].
Proof. vm_compute. reflexivity. Qed.

(** ** Focus *)

Lemma setFocusedSurface_unbound_log w surface serial :
  resource (d w) = None ->
  log_of (setFocusedSurface surface serial w)
  = match focusedSurface (d w), surface with
    | None, Some s => [call_connect_destroyed s]
    | _, _ => []
    end.
Proof.
  destruct w as [[st foc conn res] dsp proc]. simpl. intros ->.
  destruct foc as [old|], surface as [s|]; exec; reflexivity.
Qed.

(** C2, as the code has it: in a call of [setFocusedSurface] with a
    surface, an enter event for that surface is only sent after the
    binding has connected to the [destroyed] signal of the surface.  On a
    bound binding both happen, once each and in this order, and the
    binding is connected to the surface when the call returns. *)
Theorem setFocusedSurface_subscribes_before_enter (w : World)
    (s : SurfaceInterface) (serial : N) :
  let log := log_of (setFocusedSurface (Some s) serial w) in
  (forall j c,
      log !! j = Some c -> is_enter_of s c = true ->
      exists i, (i < j)%nat /\ log !! i = Some (call_connect_destroyed s))
  /\ (forall r,
        resource (d w) = Some r ->
        precedes (is_connect s) (is_enter_of s) log = true
        /\ count (is_connect s) log = 1%nat
        /\ count (is_enter_of s) log = 1%nat
        /\ exists w',
             outcome_of (setFocusedSurface (Some s) serial w) = Done tt w'
             /\ destroyConnection (d w') = Some s).
Proof.
  intros log. subst log. split.
  - intros j c Hj Hc. destruct (resource (d w)) as [r|] eqn:Hr.
    + rewrite (setFocusedSurface_bound w r (Some s) serial Hr) in Hj |- *.
      unfold log_of in *. simpl in *.
      destruct (focusedSurface (d w)) as [old|]; simpl in *.
      * destruct j as [|[|[|[|[|j]]]]]; simpl in Hj; try discriminate Hj;
          injection Hj as <-; try discriminate Hc.
        exists 2%nat. split; [lia | reflexivity].
      * destruct j as [|[|[|j]]]; simpl in Hj; try discriminate Hj;
          injection Hj as <-; try discriminate Hc.
        exists 0%nat. split; [lia | reflexivity].
    + rewrite (setFocusedSurface_unbound_log w (Some s) serial Hr) in Hj.
      destruct (focusedSurface (d w)); [discriminate Hj|].
      destruct j as [|j]; simpl in Hj; [|discriminate Hj].
      injection Hj as <-. discriminate Hc.
  - intros r Hr.
    rewrite (setFocusedSurface_bound w r (Some s) serial Hr).
    assert (Hs : bool_decide (s = s) = true)
      by (apply bool_decide_eq_true_2; reflexivity).
    assert (Hrs : bool_decide (SurfaceInterface_resource s
                               = SurfaceInterface_resource s) = true)
      by (apply bool_decide_eq_true_2; reflexivity).
    destruct (focusedSurface (d w)) as [old|];
      unfold precedes, count, log_of, outcome_of; simpl;
      rewrite ?Hs, ?Hrs; simpl;
      (split; [reflexivity|]); (split; [reflexivity|]); (split; [reflexivity|]);
      eexists; split; reflexivity.
Qed.

Lemma setFocusedSurface_subscribes_before_enter_witness :
  precedes (is_connect Scenario.B) (is_enter_of Scenario.B)
    (log_of (setFocusedSurface (Some Scenario.B) 11 Scenario.focused_A)) = true.
Proof.
  apply (proj2 (setFocusedSurface_subscribes_before_enter
                  Scenario.focused_A Scenario.B 11) Scenario.H).
  reflexivity.
Defined.

(** C2, as the claim has it, fails: when surface A gets the focus of the
    bound binding, the enter event for A does not come before the
    connection to A. *)
Lemma setFocusedSurface_enter_not_before_subscription :
  ~ subscribes_after_enter Scenario.bound Scenario.A 10.
Proof. unfold subscribes_after_enter. vm_compute. discriminate. Qed.

Lemma setFocusedSurface_focus_period w r surface serial :
  resource (d w) = Some r ->
  let cur := SurfaceInterface_resource <$> focusedSurface (d w) in
  let log := log_of (setFocusedSurface surface serial w) in
  focus_periods cur log = true
  /\ focus_after cur log = SurfaceInterface_resource <$> surface.
Proof.
  intros Hr cur log. subst cur log.
  rewrite (setFocusedSurface_bound w r surface serial Hr).
  destruct (focusedSurface (d w)) as [old|], surface as [s|]; simpl;
    rewrite ?bool_decide_eq_true_2 by reflexivity; split; reflexivity.
Qed.

Lemma run_focus_calls calls : forall w r,
  resource (d w) = Some r ->
  exists w',
    run (focus_calls calls) w = (log_of (run (focus_calls calls) w), Done tt w')
    /\ resource (d w') = Some r
    /\ focus_periods (SurfaceInterface_resource <$> focusedSurface (d w))
                     (log_of (run (focus_calls calls) w)) = true.
Proof.
  induction calls as [|[surface serial] calls IH]; intros w r Hr.
  - exists w. simpl. auto.
  - destruct (setFocusedSurface_keeps_resource w r surface serial Hr)
      as (w1 & Hstep & Hr1 & Hfoc1).
    destruct (IH w1 r Hr1) as (w' & Hrest & Hr' & Hper).
    destruct (setFocusedSurface_focus_period w r surface serial Hr)
      as [Hper1 Hafter1].
    simpl. rewrite (bind_done _ _ _ _ _ _ Hstep). cbn [fst snd log_of outcome_of].
    exists w'. split; [|split; [exact Hr'|]].
    + rewrite Hrest at 2. reflexivity.
    + rewrite focus_periods_app, Hper1, Hafter1, <- Hfoc1. exact Hper.
Qed.

(** C1: on a bound binding, a call of [setFocusedSurface] made while a
    surface has the focus sends a leave event with the serial of the call
    for that surface as its first call, sends no other leave event, and
    sends the enter event for a new surface only after it.  Over any
    sequence of [setFocusedSurface] calls the events form focus periods:
    a leave event is for the surface of the last enter event and there is
    no second leave event before the next enter event. *)
Theorem setFocusedSurface_leave_before_enter (w : World) (r : wl_resource) :
  resource (d w) = Some r ->
  (forall old surface serial,
      focusedSurface (d w) = Some old ->
      let log := log_of (setFocusedSurface surface serial w) in
      log !! 0%nat
      = Some (call_wl_keyboard_send_leave r serial (SurfaceInterface_resource old))
      /\ count is_leave log = 1%nat
      /\ (is_set surface = true -> precedes is_leave is_enter log = true))
  /\ (forall calls,
        exists w',
          run (focus_calls calls) w
          = (log_of (run (focus_calls calls) w), Done tt w')
          /\ focus_periods
               (SurfaceInterface_resource <$> focusedSurface (d w))
               (log_of (run (focus_calls calls) w)) = true).
Proof.
  intros Hr. split.
  - intros old surface serial Hold log. subst log.
    rewrite (setFocusedSurface_bound w r surface serial Hr), Hold.
    destruct surface as [s|]; simpl; (split; [reflexivity|]);
      (split; [reflexivity|]); [reflexivity | discriminate].
  - intros calls. destruct (run_focus_calls calls w r Hr) as (w' & Hrun & _ & Hper).
    exists w'. split; assumption.
Qed.

Lemma setFocusedSurface_leave_before_enter_witness :
  (forall old surface serial,
      focusedSurface (d Scenario.focused_A) = Some old ->
      let log := log_of (setFocusedSurface surface serial Scenario.focused_A) in
      log !! 0%nat
      = Some (call_wl_keyboard_send_leave Scenario.H serial
                (SurfaceInterface_resource old))
      /\ count is_leave log = 1%nat
      /\ (is_set surface = true -> precedes is_leave is_enter log = true))
  /\ (forall calls,
        exists w',
          run (focus_calls calls) Scenario.focused_A
          = (log_of (run (focus_calls calls) Scenario.focused_A), Done tt w')
          /\ focus_periods
               (SurfaceInterface_resource <$> focusedSurface (d Scenario.focused_A))
               (log_of (run (focus_calls calls) Scenario.focused_A)) = true).
Proof.
  apply (setFocusedSurface_leave_before_enter Scenario.focused_A Scenario.H).
  reflexivity.
Defined.

(** The scenario of the specification: focus on A with serial 10 while
    the keys 30 and 31 are down, then focus on B with serial 11. *)
Example focus_A_then_B_scenario :
  log_of (run (focus_calls [(Some Scenario.A, 10%N); (Some Scenario.B, 11%N)])
              Scenario.bound)
  = [call_connect_destroyed Scenario.A;
     call_wl_keyboard_send_enter Scenario.H 10
       (SurfaceInterface_resource Scenario.A) [30%N; 31%N];
     call_wl_keyboard_send_modifiers Scenario.H 9 1 0 2 0;
     call_wl_keyboard_send_leave Scenario.H 11
       (SurfaceInterface_resource Scenario.A);
     call_disconnect (Some Scenario.A);
     call_connect_destroyed Scenario.B;
     call_wl_keyboard_send_enter Scenario.H 11
       (SurfaceInterface_resource Scenario.B) [30%N; 31%N];
     call_wl_keyboard_send_modifiers Scenario.H 9 1 0 2 0].
Proof. reflexivity. Qed.

(** ** Destruction of the focused surface *)

Lemma initial_connection_follows_focus s dsp proc :
  connection_follows_focus (initial s dsp proc).
Proof. reflexivity. Qed.

(** Everything but [setFocusedSurface] and the destruction of a surface
    leaves the focus and the connection alone. *)
Section Frame.

Context {A B : Type}.

Lemma keeps_focus_ret (a : A) : keeps_focus (ret a).
Proof. intros w log a' w' [= <- <- <-]. auto. Qed.

Lemma keeps_focus_abort (f : Failure) : keeps_focus (@abort A f).
Proof. intros w log a w' [=]. Qed.

Lemma keeps_focus_bind (m : Exec A) (k : A -> Exec B) :
  keeps_focus m -> (forall a, keeps_focus (k a)) -> keeps_focus (bind m k).
Proof.
  intros Hm Hk w log b w' Hrun. unfold bind in Hrun.
  destruct (m w) as [l1 [a w1|f]] eqn:Em; [|discriminate].
  destruct (k a w1) as [l2 o2] eqn:Ek. injection Hrun as <- ->.
  destruct (Hk a _ _ _ _ Ek) as [-> ->]. exact (Hm _ _ _ _ Em).
Qed.

End Frame.

Lemma keeps_focus_get : keeps_focus get.
Proof. intros w log a w' [= <- <- <-]. auto. Qed.

Lemma keeps_focus_get_d : keeps_focus get_d.
Proof. intros w log a w' [= <- <- <-]. auto. Qed.

Lemma keeps_focus_emit c : keeps_focus (emit c).
Proof. intros w log a w' [= <- <- <-]. auto. Qed.

Lemma keeps_focus_modify f :
  (forall w, focusedSurface (d (f w)) = focusedSurface (d w)
             /\ destroyConnection (d (f w)) = destroyConnection (d w)) ->
  keeps_focus (modify f).
Proof. intros Hf w log a w' [= <- <- <-]. apply Hf. Qed.

Lemma keeps_focus_set_resource r : keeps_focus (modify (with_d (set_resource r))).
Proof. apply keeps_focus_modify. intros w. split; reflexivity. Qed.

Lemma keeps_focus_set_seat s : keeps_focus (modify (with_d (set_seat s))).
Proof. apply keeps_focus_modify. intros w. split; reflexivity. Qed.

Lemma keeps_focus_with_display f : keeps_focus (modify (with_display f)).
Proof. apply keeps_focus_modify. intros w. split; reflexivity. Qed.

Lemma keeps_focus_with_process f : keeps_focus (modify (with_process f)).
Proof. apply keeps_focus_modify. intros w. split; reflexivity. Qed.

Create HintDb frame discriminated.

#[local] Hint Resolve keeps_focus_ret keeps_focus_abort keeps_focus_bind
  keeps_focus_get keeps_focus_get_d keeps_focus_emit keeps_focus_set_resource
  keeps_focus_set_seat keeps_focus_with_display keeps_focus_with_process
  : frame.
#[local] Hint Extern 1 (keeps_focus (match ?x with _ => _ end)) =>
  destruct x : frame.
#[local] Hint Extern 2 (keeps_focus _) => progress
  cbv [Q_ASSERT post_event wl_keyboard_send_keymap wl_keyboard_send_modifiers
       wl_keyboard_send_key wl_resource_post_no_memory
       wl_resource_set_implementation wl_resource_destroy cast open close
       sendKeymap_fd_size sendModifiers_values] : frame.
#[local] Hint Extern 0 (forall _, keeps_focus _) => intro : frame.
#[local] Hint Extern 0 (keeps_focus _) => progress cbv beta : frame.

Lemma keeps_focus_wl_resource_create client interface version id :
  keeps_focus (wl_resource_create client interface version id).
Proof.
  intros w log a w' Hrun. unfold wl_resource_create in Hrun.
  destruct (out_of_memory (display w)); injection Hrun as <- <- <-; auto.
Qed.

#[local] Hint Resolve keeps_focus_wl_resource_create : frame.

Lemma keeps_focus_sendKeymap : keeps_focus sendKeymap.
Proof. unfold sendKeymap. eauto 40 with frame. Qed.

#[local] Hint Resolve keeps_focus_sendKeymap : frame.

Lemma keeps_focus_unbind r : keeps_focus (unbind r).
Proof. unfold unbind. eauto 40 with frame. Qed.

#[local] Hint Resolve keeps_focus_unbind : frame.

Lemma perform_keeps_focus a :
  match a with
  | do_setFocusedSurface _ _ | surface_destroyed _ => True
  | _ => keeps_focus (perform a)
  end.
Proof.
  destruct a; try exact I;
    cbv [perform createInterfae setKeymap keyPressed keyReleased updateModifiers
         transport_release transport_unbind releaseCallback];
    eauto 40 with frame.
Qed.

Lemma setFocusedSurface_connection_follows_focus w surface serial log w' :
  connection_follows_focus w ->
  setFocusedSurface surface serial w = (log, Done tt w') ->
  connection_follows_focus w'.
Proof.
  unfold connection_follows_focus. intros Hinv Hrun.
  destruct (resource (d w)) as [r|] eqn:Hr.
  - rewrite (setFocusedSurface_bound w r surface serial Hr) in Hrun.
    injection Hrun as _ <-. simpl.
    destruct surface as [s|]; [reflexivity|].
    destruct (focusedSurface (d w)); [reflexivity | exact Hinv].
  - destruct w as [[st foc conn res] dsp proc]. simpl in Hinv, Hr. subst conn res.
    destruct foc as [old|], surface as [s|]; revert Hrun; exec;
      intros Hrun; try discriminate Hrun.
    injection Hrun as _ <-. reflexivity.
Qed.

Lemma SurfaceInterface_destroyed_connected w s :
  destroyConnection (d w) = Some s ->
  SurfaceInterface_destroyed s w
  = ([], Done tt (with_d (fun p => set_destroyConnection None
                                     (set_focusedSurface None p)) w)).
Proof.
  destruct w as [[st foc conn res] dsp proc]. simpl. intros ->.
  exec. rewrite bool_decide_eq_true_2 by reflexivity. reflexivity.
Qed.

Lemma SurfaceInterface_destroyed_connection_follows_focus w s log w' :
  connection_follows_focus w ->
  SurfaceInterface_destroyed s w = (log, Done tt w') ->
  connection_follows_focus w'.
Proof.
  unfold connection_follows_focus. intros Hinv Hrun.
  destruct (decide (destroyConnection (d w) = Some s)) as [Hconn|Hother].
  - rewrite (SurfaceInterface_destroyed_connected w s Hconn) in Hrun.
    injection Hrun as _ <-. reflexivity.
  - revert Hrun. unfold SurfaceInterface_destroyed, bind, get_d, ret.
    rewrite bool_decide_eq_false_2 by exact Hother.
    intros [= _ <-]. exact Hinv.
Qed.

Lemma perform_connection_follows_focus a w log w' :
  connection_follows_focus w ->
  perform a w = (log, Done tt w') ->
  connection_follows_focus w'.
Proof.
  intros Hinv Hrun. pose proof (perform_keeps_focus a) as Hframe.
  destruct a;
    try (unfold connection_follows_focus in *;
         destruct (Hframe _ _ _ _ Hrun) as [-> ->]; exact Hinv).
  - exact (setFocusedSurface_connection_follows_focus _ _ _ _ _ Hinv Hrun).
  - exact (SurfaceInterface_destroyed_connection_follows_focus _ _ _ _ Hinv Hrun).
Qed.

(** Every state a binding reaches has its destroy connection on the
    focused surface. *)
Lemma run_connection_follows_focus acts : forall w log w',
  connection_follows_focus w ->
  run acts w = (log, Done tt w') ->
  connection_follows_focus w'.
Proof.
  induction acts as [|a acts IH]; intros w log w' Hinv Hrun.
  - injection Hrun as _ <-. exact Hinv.
  - simpl in Hrun. unfold bind in Hrun.
    destruct (perform a w) as [l1 [[] w1|f]] eqn:Ea; [|discriminate].
    destruct (run acts w1) as [l2 o2] eqn:Er. injection Hrun as _ ->.
    exact (IH _ _ _ (perform_connection_follows_focus _ _ _ _ Hinv Ea) Er).
Qed.

Lemma setFocusedSurface_unfocused_no_leave w surface serial :
  focusedSurface (d w) = None ->
  count is_leave (log_of (setFocusedSurface surface serial w)) = 0%nat.
Proof.
  destruct w as [[st foc conn res] dsp proc]. simpl. intros ->.
  destruct res as [r|], surface as [s|]; exec; reflexivity.
Qed.

(** C7: in every state a new binding can reach, when the surface that has
    the focus is destroyed by its owner, the binding makes no call (so it
    sends no leave event), and [focusedSurface()] returns null
    afterwards; a later [setFocusedSurface] sends no leave event for the
    destroyed surface either. *)
Theorem focused_surface_destroyed_silently (s0 : SeatInterface)
    (dsp : Display) (proc : Process) (acts : list Action) (log : list Call)
    (w : World) (s : SurfaceInterface) :
  run acts (initial s0 dsp proc) = (log, Done tt w) ->
  KeyboardInterface_focusedSurface w = Some s ->
  exists w',
    SurfaceInterface_destroyed s w = ([], Done tt w')
    /\ KeyboardInterface_focusedSurface w' = None
    /\ forall surface serial,
         count is_leave (log_of (setFocusedSurface surface serial w')) = 0%nat.
Proof.
  intros Hrun Hfoc.
  pose proof (run_connection_follows_focus acts _ _ _
                (initial_connection_follows_focus s0 dsp proc) Hrun) as Hinv.
  unfold connection_follows_focus, KeyboardInterface_focusedSurface in *.
  rewrite Hfoc in Hinv.
  eexists. split; [apply SurfaceInterface_destroyed_connected, Hinv|].
  split; [reflexivity|].
  intros surface serial. apply setFocusedSurface_unfocused_no_leave. reflexivity.
Qed.

Lemma focused_surface_destroyed_silently_witness :
  exists w',
    SurfaceInterface_destroyed Scenario.A Scenario.focused_A = ([], Done tt w')
    /\ KeyboardInterface_focusedSurface w' = None
    /\ forall surface serial,
         count is_leave (log_of (setFocusedSurface surface serial w')) = 0%nat.
Proof.
  apply (focused_surface_destroyed_silently Scenario.seat0 Scenario.display0
           Scenario.process0
           [do_createInterfae Scenario.C Scenario.seat_resource 7;
            do_setFocusedSurface (Some Scenario.A) 10]
           [call_wl_keyboard_send_keymap Scenario.H
              WL_KEYBOARD_KEYMAP_FORMAT_XKB_V1 3 1024;
            call_connect_destroyed Scenario.A;
            call_wl_keyboard_send_enter Scenario.H 10
              (SurfaceInterface_resource Scenario.A) [30%N; 31%N];
            call_wl_keyboard_send_modifiers Scenario.H 9 1 0 2 0]
           Scenario.focused_A Scenario.A).
  - reflexivity.
  - reflexivity.
Defined.

(** ** The scenario states are states of a run *)

Example focused_A_reachable :
  outcome_of (run [do_createInterfae Scenario.C Scenario.seat_resource 7;
                   do_setFocusedSurface (Some Scenario.A) 10]
                  Scenario.unbound)
  = Done tt Scenario.focused_A.
Proof. reflexivity. Qed.

(** Without a resource there is nothing to post the enter event on: the
    properties of the focus events are those of a bound binding. *)
Example setFocusedSurface_unbound_aborts :
  setFocusedSurface (Some Scenario.A) 10 Scenario.unbound
  = ([call_connect_destroyed Scenario.A], Aborted NullPointerDereference).
Proof. reflexivity. Qed.

(** * Further properties of the code *)

(** ** Delivery on the stored handle *)

Lemma setKeymap_cases w fd size :
  setKeymap fd size w
  = match resource (d w) with
    | Some r =>
        ([call_wl_keyboard_send_keymap r WL_KEYBOARD_KEYMAP_FORMAT_XKB_V1 fd size],
         Done tt w)
    | None => ([], Aborted AssertionFailure)
    end.
Proof.
  destruct w as [[st foc conn res] dsp proc]. destruct res; exec; reflexivity.
Qed.

Lemma keyPressed_cases w key serial :
  keyPressed key serial w
  = match focusedSurface (d w), resource (d w) with
    | None, _ => ([], Aborted AssertionFailure)
    | Some _, None => ([], Aborted NullPointerDereference)
    | Some _, Some r =>
        ([call_wl_keyboard_send_key r serial (timestamp (seat (d w))) key
            WL_KEYBOARD_KEY_STATE_PRESSED], Done tt w)
    end.
Proof.
  destruct w as [[st foc conn res] dsp proc].
  destruct foc, res; exec; reflexivity.
Qed.

Lemma keyReleased_cases w key serial :
  keyReleased key serial w
  = match focusedSurface (d w), resource (d w) with
    | None, _ => ([], Aborted AssertionFailure)
    | Some _, None => ([], Aborted NullPointerDereference)
    | Some _, Some r =>
        ([call_wl_keyboard_send_key r serial (timestamp (seat (d w))) key
            WL_KEYBOARD_KEY_STATE_RELEASED], Done tt w)
    end.
Proof.
  destruct w as [[st foc conn res] dsp proc].
  destruct foc, res; exec; reflexivity.
Qed.

Lemma updateModifiers_cases w depressed latched locked group serial :
  updateModifiers depressed latched locked group serial w
  = match focusedSurface (d w), resource (d w) with
    | None, _ | Some _, None => ([], Aborted AssertionFailure)
    | Some _, Some r =>
        ([call_wl_keyboard_send_modifiers r serial depressed latched locked group],
         Done tt w)
    end.
Proof.
  destruct w as [[st foc conn res] dsp proc].
  destruct foc, res; exec; reflexivity.
Qed.

(** X1: [setKeymap(fd, size)] on a binding with a resource sends one
    keymap event of format XKB_V1 with exactly this descriptor and size
    on the stored resource and changes nothing; on a binding without a
    resource it stops at [Q_ASSERT(resource)] and sends nothing.  It
    neither looks at the seat nor at the focus. *)
Theorem setKeymap_sends_on_handle (w : World) (fd : Z) (size : N) :
  (forall r, resource (d w) = Some r ->
     setKeymap fd size w
     = ([call_wl_keyboard_send_keymap r WL_KEYBOARD_KEYMAP_FORMAT_XKB_V1 fd size],
        Done tt w))
  /\ (resource (d w) = None ->
      setKeymap fd size w = ([], Aborted AssertionFailure)).
Proof.
  rewrite setKeymap_cases. split.
  - intros r ->. reflexivity.
  - intros ->. reflexivity.
Qed.

(** X2: [keyPressed] and [keyReleased] on a focused binding with a
    resource send one key event each, with the serial and key code of
    the call, the timestamp of the seat, and the state PRESSED
    respectively RELEASED; neither changes the binding, so the pressed
    keys are kept by the seat alone.  With the focus set but the resource
    gone there is no assertion in their way: the event is posted on a
    null resource. *)
Theorem key_events_on_focused_binding (w : World) (s : SurfaceInterface)
    (key serial : N) :
  focusedSurface (d w) = Some s ->
  (forall r, resource (d w) = Some r ->
     keyPressed key serial w
     = ([call_wl_keyboard_send_key r serial (timestamp (seat (d w))) key
           WL_KEYBOARD_KEY_STATE_PRESSED], Done tt w)
     /\ keyReleased key serial w
        = ([call_wl_keyboard_send_key r serial (timestamp (seat (d w))) key
              WL_KEYBOARD_KEY_STATE_RELEASED], Done tt w))
  /\ (resource (d w) = None ->
      keyPressed key serial w = ([], Aborted NullPointerDereference)
      /\ keyReleased key serial w = ([], Aborted NullPointerDereference)).
Proof.
  intros Hfoc. rewrite keyPressed_cases, keyReleased_cases, Hfoc. split.
  - intros r ->. split; reflexivity.
  - intros ->. split; reflexivity.
Qed.

Lemma key_events_on_focused_binding_witness :
  (forall r, resource (d Scenario.focused_A) = Some r ->
     keyPressed 30 20 Scenario.focused_A
     = ([call_wl_keyboard_send_key r 20
           (timestamp (seat (d Scenario.focused_A))) 30
           WL_KEYBOARD_KEY_STATE_PRESSED], Done tt Scenario.focused_A)
     /\ keyReleased 30 20 Scenario.focused_A
        = ([call_wl_keyboard_send_key r 20
              (timestamp (seat (d Scenario.focused_A))) 30
              WL_KEYBOARD_KEY_STATE_RELEASED], Done tt Scenario.focused_A))
  /\ (resource (d Scenario.focused_A) = None ->
      keyPressed 30 20 Scenario.focused_A = ([], Aborted NullPointerDereference)
      /\ keyReleased 30 20 Scenario.focused_A
         = ([], Aborted NullPointerDereference)).
Proof.
  apply (key_events_on_focused_binding Scenario.focused_A Scenario.A 30 20).
  reflexivity.
Defined.

(** X3: [updateModifiers(depressed, latched, locked, group, serial)] on a
    focused binding with a resource sends one modifiers event that has
    the serial first and then the four values in the order of the call,
    and changes nothing.  With the focus set but the resource gone it
    stops at [Q_ASSERT(resource)] of [sendModifiers]: an assertion
    failure, where the key events would post on a null resource. *)
Theorem updateModifiers_on_focused_binding (w : World) (s : SurfaceInterface)
    (depressed latched locked group serial : N) :
  focusedSurface (d w) = Some s ->
  (forall r, resource (d w) = Some r ->
     updateModifiers depressed latched locked group serial w
     = ([call_wl_keyboard_send_modifiers r serial depressed latched locked group],
        Done tt w))
  /\ (resource (d w) = None ->
      updateModifiers depressed latched locked group serial w
      = ([], Aborted AssertionFailure)).
Proof.
  intros Hfoc. rewrite updateModifiers_cases, Hfoc. split.
  - intros r ->. reflexivity.
  - intros ->. reflexivity.
Qed.

Lemma updateModifiers_on_focused_binding_witness :
  (forall r, resource (d Scenario.focused_A) = Some r ->
     updateModifiers 1 2 3 4 20 Scenario.focused_A
     = ([call_wl_keyboard_send_modifiers r 20 1 2 3 4], Done tt Scenario.focused_A))
  /\ (resource (d Scenario.focused_A) = None ->
      updateModifiers 1 2 3 4 20 Scenario.focused_A
      = ([], Aborted AssertionFailure)).
Proof.
  apply (updateModifiers_on_focused_binding Scenario.focused_A Scenario.A
           1 2 3 4 20).
  reflexivity.
Defined.

(** ** The focus a binding records *)

Lemma last_nonempty_default {A} (l : list A) (x d1 d2 : A) :
  List.last (x :: l) d1 = List.last (x :: l) d2.
Proof.
  revert x. induction l as [|y l IH]; intros x; [reflexivity|].
  change (List.last (y :: l) d1 = List.last (y :: l) d2). apply IH.
Qed.

Lemma setFocusedSurface_bound_state w r surface serial :
  resource (d w) = Some r ->
  exists w',
    setFocusedSurface surface serial w
    = (log_of (setFocusedSurface surface serial w), Done tt w')
    /\ focusedSurface (d w') = surface
    /\ resource (d w') = Some r
    /\ seat (d w') = seat (d w)
    /\ display w' = display w
    /\ process w' = process w.
Proof.
  intros Hr. rewrite (setFocusedSurface_bound w r surface serial Hr).
  eexists. split; [reflexivity|].
  destruct w as [[st foc conn res] dsp proc]. simpl in *. auto.
Qed.

Lemma run_focus_calls_final calls : forall w r,
  resource (d w) = Some r ->
  exists w',
    outcome_of (run (focus_calls calls) w) = Done tt w'
    /\ focusedSurface (d w') = List.last (List.map fst calls) (focusedSurface (d w))
    /\ resource (d w') = Some r
    /\ seat (d w') = seat (d w)
    /\ display w' = display w
    /\ process w' = process w.
Proof.
  induction calls as [|[surface serial] calls IH]; intros w r Hr.
  - exists w. repeat split; try reflexivity. exact Hr.
  - destruct (setFocusedSurface_bound_state w r surface serial Hr)
      as (w1 & Hstep & Hfoc1 & Hres1 & Hseat1 & Hdsp1 & Hproc1).
    destruct (IH w1 r Hres1) as (w' & Hout & Hfoc & Hres & Hseat & Hdsp & Hproc).
    simpl. rewrite (bind_done _ _ _ _ _ _ Hstep). cbn [outcome_of snd].
    exists w'. split; [exact Hout|].
    split; [|repeat split; congruence].
    rewrite Hfoc. destruct calls as [|c calls]; [exact Hfoc1|].
    change (List.map fst ((surface, serial) :: c :: calls))
      with (surface :: List.map fst (c :: calls)).
    cbn [List.map]. cbn [List.last]. apply last_nonempty_default.
Qed.

(** X4: on a binding with a resource, [setFocusedSurface(surface,
    serial)] returns, and afterwards [focusedSurface()] gives back the
    surface of the call, null included, while [resource()], the seat, the
    display and the process are as before.  After a sequence of such
    calls [focusedSurface()] is the surface of the last one. *)
Theorem setFocusedSurface_then_focusedSurface (w : World) (r : wl_resource) :
  resource (d w) = Some r ->
  (forall surface serial,
     exists w',
       outcome_of (setFocusedSurface surface serial w) = Done tt w'
       /\ KeyboardInterface_focusedSurface w' = surface
       /\ KeyboardInterface_resource w' = Some r
       /\ seat (d w') = seat (d w)
       /\ display w' = display w
       /\ process w' = process w)
  /\ (forall calls,
        exists w',
          outcome_of (run (focus_calls calls) w) = Done tt w'
          /\ KeyboardInterface_focusedSurface w'
             = List.last (List.map fst calls) (focusedSurface (d w))
          /\ KeyboardInterface_resource w' = Some r).
Proof.
  intros Hr. split.
  - intros surface serial.
    destruct (setFocusedSurface_bound_state w r surface serial Hr)
      as (w' & Hstep & Hrest).
    exists w'. split; [rewrite Hstep; reflexivity | exact Hrest].
  - intros calls.
    destruct (run_focus_calls_final calls w r Hr)
      as (w' & Hout & Hfoc & Hres & _).
    exists w'. auto.
Qed.

Lemma setFocusedSurface_then_focusedSurface_witness :
  (forall surface serial,
     exists w',
       outcome_of (setFocusedSurface surface serial Scenario.bound) = Done tt w'
       /\ KeyboardInterface_focusedSurface w' = surface
       /\ KeyboardInterface_resource w' = Some Scenario.H
       /\ seat (d w') = seat (d Scenario.bound)
       /\ display w' = display Scenario.bound
       /\ process w' = process Scenario.bound)
  /\ (forall calls,
        exists w',
          outcome_of (run (focus_calls calls) Scenario.bound) = Done tt w'
          /\ KeyboardInterface_focusedSurface w'
             = List.last (List.map fst calls) (focusedSurface (d Scenario.bound))
          /\ KeyboardInterface_resource w' = Some Scenario.H).
Proof.
  apply (setFocusedSurface_then_focusedSurface Scenario.bound Scenario.H).
  reflexivity.
Defined.

(** X5: the enter event that [setFocusedSurface] sends for a surface
    carries the pressed keys of the seat, all of them and in the order
    the seat has them, and it is directly followed by a modifiers event
    with the four modifier values of the seat and the serial the seat
    recorded for them, not the serial of the call.  These two are the
    last calls of [setFocusedSurface]. *)
Theorem setFocusedSurface_enter_payload (w : World) (r : wl_resource)
    (s : SurfaceInterface) (serial : N) :
  resource (d w) = Some r ->
  exists before,
    log_of (setFocusedSurface (Some s) serial w)
    = before ++
      [call_wl_keyboard_send_enter r serial (SurfaceInterface_resource s)
         (pressedKeys (seat (d w)));
       call_wl_keyboard_send_modifiers r (lastModifiersSerial (seat (d w)))
         (depressedModifiers (seat (d w))) (latchedModifiers (seat (d w)))
         (lockedModifiers (seat (d w))) (groupModifiers (seat (d w)))]
    /\ count is_enter before = 0%nat.
Proof.
  intros Hr. rewrite (setFocusedSurface_bound w r (Some s) serial Hr).
  destruct (focusedSurface (d w)) as [old|].
  - exists [call_wl_keyboard_send_leave r serial (SurfaceInterface_resource old);
            call_disconnect (destroyConnection (d w));
            call_connect_destroyed s].
    split; reflexivity.
  - exists [call_connect_destroyed s]. split; reflexivity.
Qed.

Lemma setFocusedSurface_enter_payload_witness :
  exists before,
    log_of (setFocusedSurface (Some Scenario.B) 11 Scenario.focused_A)
    = before ++
      [call_wl_keyboard_send_enter Scenario.H 11
         (SurfaceInterface_resource Scenario.B)
         (pressedKeys (seat (d Scenario.focused_A)));
       call_wl_keyboard_send_modifiers Scenario.H
         (lastModifiersSerial (seat (d Scenario.focused_A)))
         (depressedModifiers (seat (d Scenario.focused_A)))
         (latchedModifiers (seat (d Scenario.focused_A)))
         (lockedModifiers (seat (d Scenario.focused_A)))
         (groupModifiers (seat (d Scenario.focused_A)))]
    /\ count is_enter before = 0%nat.
Proof.
  apply (setFocusedSurface_enter_payload Scenario.focused_A Scenario.H
           Scenario.B 11).
  reflexivity.
Defined.

(** X6: [setFocusedSurface] does not compare the new surface with the
    focused one.  Called with the surface that already has the focus, on
    a binding with a resource that is connected to this surface, it sends
    the leave event and then the enter and modifiers events for the same
    surface and reconnects, and the binding is in the same state
    afterwards. *)
Theorem setFocusedSurface_same_surface (w : World) (r : wl_resource)
    (s : SurfaceInterface) (serial : N) :
  resource (d w) = Some r ->
  focusedSurface (d w) = Some s ->
  destroyConnection (d w) = Some s ->
  setFocusedSurface (Some s) serial w
  = ([call_wl_keyboard_send_leave r serial (SurfaceInterface_resource s);
      call_disconnect (Some s);
      call_connect_destroyed s;
      call_wl_keyboard_send_enter r serial (SurfaceInterface_resource s)
        (pressedKeys (seat (d w)));
      call_wl_keyboard_send_modifiers r (lastModifiersSerial (seat (d w)))
        (depressedModifiers (seat (d w))) (latchedModifiers (seat (d w)))
        (lockedModifiers (seat (d w))) (groupModifiers (seat (d w)))],
     Done tt w).
Proof.
  intros Hr Hfoc Hconn.
  rewrite (setFocusedSurface_bound w r (Some s) serial Hr).
  destruct w as [[st foc conn res] dsp proc]. simpl in *. subst. reflexivity.
Qed.

Lemma setFocusedSurface_same_surface_witness :
  setFocusedSurface (Some Scenario.A) 12 Scenario.focused_A
  = ([call_wl_keyboard_send_leave Scenario.H 12
        (SurfaceInterface_resource Scenario.A);
      call_disconnect (Some Scenario.A);
      call_connect_destroyed Scenario.A;
      call_wl_keyboard_send_enter Scenario.H 12
        (SurfaceInterface_resource Scenario.A)
        (pressedKeys (seat (d Scenario.focused_A)));
      call_wl_keyboard_send_modifiers Scenario.H
        (lastModifiersSerial (seat (d Scenario.focused_A)))
        (depressedModifiers (seat (d Scenario.focused_A)))
        (latchedModifiers (seat (d Scenario.focused_A)))
        (lockedModifiers (seat (d Scenario.focused_A)))
        (groupModifiers (seat (d Scenario.focused_A)))],
     Done tt Scenario.focused_A).
Proof.
  apply (setFocusedSurface_same_surface Scenario.focused_A Scenario.H
           Scenario.A 12); reflexivity.
Defined.

Lemma count_app f log1 log2 :
  count f (log1 ++ log2) = (count f log1 + count f log2)%nat.
Proof. unfold count. rewrite List.filter_app, length_app. reflexivity. Qed.

Lemma setFocusedSurface_event_counts w r surface serial :
  resource (d w) = Some r ->
  count is_leave (log_of (setFocusedSurface surface serial w))
  = open_period (focusedSurface (d w))
  /\ count is_enter (log_of (setFocusedSurface surface serial w))
     = open_period surface.
Proof.
  intros Hr. rewrite (setFocusedSurface_bound w r surface serial Hr).
  destruct (focusedSurface (d w)), surface; split; reflexivity.
Qed.

Lemma run_focus_calls_counts calls : forall w r,
  resource (d w) = Some r ->
  exists w',
    outcome_of (run (focus_calls calls) w) = Done tt w'
    /\ (count is_leave (log_of (run (focus_calls calls) w))
        + open_period (focusedSurface (d w'))
        = count is_enter (log_of (run (focus_calls calls) w))
          + open_period (focusedSurface (d w)))%nat
    /\ count is_enter (log_of (run (focus_calls calls) w))
       = length (List.filter (fun c => is_set (fst c)) calls).
Proof.
  induction calls as [|[surface serial] calls IH]; intros w r Hr.
  - exists w. repeat split; reflexivity.
  - destruct (setFocusedSurface_bound_state w r surface serial Hr)
      as (w1 & Hstep & Hfoc1 & Hres1 & _).
    destruct (setFocusedSurface_event_counts w r surface serial Hr)
      as [Hleave Henter].
    destruct (IH w1 r Hres1) as (w' & Hout & Hbal & Hent).
    simpl. rewrite (bind_done _ _ _ _ _ _ Hstep). cbn [outcome_of log_of fst snd].
    exists w'. split; [exact Hout|].
    rewrite !count_app. unfold log_of in *.
    rewrite Hleave, Henter, Hent. rewrite Hfoc1 in Hbal. rewrite Hent in Hbal.
    split; [lia|].
    unfold open_period. destruct (is_set surface); simpl; lia.
Qed.

(** X7: over a sequence of [setFocusedSurface] calls on a binding with a
    resource, every call with a surface sends exactly one enter event, so
    the enter events are as many as the calls with a non-null surface;
    and every focus period that was opened is closed by exactly one leave
    event unless it is the one still running: leave events plus the
    period running at the end are as many as enter events plus the period
    running at the start. *)
Theorem focus_events_balance (w : World) (r : wl_resource)
    (calls : list (option SurfaceInterface * N)) :
  resource (d w) = Some r ->
  exists w',
    outcome_of (run (focus_calls calls) w) = Done tt w'
    /\ (count is_leave (log_of (run (focus_calls calls) w))
        + open_period (KeyboardInterface_focusedSurface w')
        = count is_enter (log_of (run (focus_calls calls) w))
          + open_period (KeyboardInterface_focusedSurface w))%nat
    /\ count is_enter (log_of (run (focus_calls calls) w))
       = length (List.filter (fun c => is_set (fst c)) calls).
Proof. intros Hr. exact (run_focus_calls_counts calls w r Hr). Qed.

Lemma focus_events_balance_witness :
  exists w',
    outcome_of (run (focus_calls [(Some Scenario.A, 10%N); (None, 11%N);
                                  (Some Scenario.B, 12%N)])
                    Scenario.bound) = Done tt w'
    /\ (count is_leave
          (log_of (run (focus_calls [(Some Scenario.A, 10%N); (None, 11%N);
                                     (Some Scenario.B, 12%N)])
                       Scenario.bound))
        + open_period (KeyboardInterface_focusedSurface w')
        = count is_enter
            (log_of (run (focus_calls [(Some Scenario.A, 10%N); (None, 11%N);
                                       (Some Scenario.B, 12%N)])
                         Scenario.bound))
          + open_period (KeyboardInterface_focusedSurface Scenario.bound))%nat
    /\ count is_enter
         (log_of (run (focus_calls [(Some Scenario.A, 10%N); (None, 11%N);
                                    (Some Scenario.B, 12%N)])
                      Scenario.bound))
       = length (List.filter (fun c => is_set (fst c))
                   [(Some Scenario.A, 10%N); (None, 11%N);
                    (Some Scenario.B, 12%N)]).
Proof.
  apply (focus_events_balance Scenario.bound Scenario.H
           [(Some Scenario.A, 10%N); (None, 11%N); (Some Scenario.B, 12%N)]).
  reflexivity.
Defined.

(** ** Surfaces that are destroyed *)



(** ** The stored handle *)

Lemma createInterfae_oom w client parentResource id :
  out_of_memory (display w) = true ->
  createInterfae client parentResource id w
  = ([call_wl_resource_post_no_memory parentResource], Done tt w).
Proof.
  destruct w as [p [objs impls oom] proc]. simpl. intros ->.
  exec. reflexivity.
Qed.

Lemma createInterfae_allocated_exact w client parentResource id :
  out_of_memory (display w) = false ->
  let k := keyboard_resource client parentResource id in
  let nullFd := opened_fd (process w) in
  createInterfae client parentResource id w
  = (if isKeymapXkbCompatible (seat (d w)) then
       [call_wl_keyboard_send_keymap k WL_KEYBOARD_KEYMAP_FORMAT_XKB_V1
          (keymapFileDescriptor (seat (d w))) (keymapSize (seat (d w)))]
     else
       [call_open "/dev/null" nullFd;
        call_wl_keyboard_send_keymap k WL_KEYBOARD_KEYMAP_FORMAT_NO_KEYMAP
          nullFd 0;
        call_close nullFd],
     Done tt
       {| d := set_resource (Some k) (d w);
          display := {| objects := k :: objects (display w);
                        implementations := k :: implementations (display w);
                        out_of_memory := false |};
          process := process w |}).
Proof.
  intros Hoom k nullFd. subst k nullFd. unfold opened_fd, keyboard_resource.
  pose proof (open_close_restores (process w)) as Hfds.
  destruct w as [[st foc conn res] [objs impls oom] proc].
  simpl in Hoom, Hfds. subst oom.
  destruct (isKeymapXkbCompatible st) eqn:Hcompat.
  - exec. rewrite Hcompat. reflexivity.
  - destruct (lowest_free_fd proc) as [fd|] eqn:Hfd.
    + pose proof (lowest_free_fd_spec _ _ Hfd) as [_ Hpos].
      exec. rewrite Hcompat, Hfd. exec.
      rewrite bool_decide_eq_true_2 by exact Hpos. cbv beta iota.
      simpl. rewrite Hfds. reflexivity.
    + exec. rewrite Hcompat, Hfd. exec. reflexivity.
Qed.

Lemma createInterfae_allocated w client parentResource id :
  out_of_memory (display w) = false ->
  let k := keyboard_resource client parentResource id in
  exists w',
    createInterfae client parentResource id w
    = (log_of (createInterfae client parentResource id w), Done tt w')
    /\ d w' = set_resource (Some k) (d w)
    /\ display w'
       = {| objects := k :: objects (display w);
            implementations := k :: implementations (display w);
            out_of_memory := false |}
    /\ Forall (fun c => forall r, event_target c = Some r -> r = k)
              (log_of (createInterfae client parentResource id w)).
Proof.
  intros Hoom k.
  rewrite (createInterfae_allocated_exact w client parentResource id Hoom).
  eexists. split; [reflexivity|]. split; [reflexivity|]. split; [reflexivity|].
  unfold log_of, fst.
  destruct (isKeymapXkbCompatible (seat (d w)));
    repeat constructor; try discriminate; intros r [= <-]; reflexivity.
Qed.

Lemma setFocusedSurface_unbound w surface serial :
  resource (d w) = None ->
  setFocusedSurface surface serial w
  = match focusedSurface (d w), surface with
    | None, None => ([], Done tt w)
    | None, Some s => ([call_connect_destroyed s], Aborted NullPointerDereference)
    | Some _, _ => ([], Aborted NullPointerDereference)
    end.
Proof.
  destruct w as [[st foc conn res] dsp proc]. simpl. intros ->.
  destruct foc as [old|], surface as [s|]; exec; reflexivity.
Qed.

Lemma transport_release_unregistered w r :
  r ∉ implementations (display w) -> transport_release r w = ([], Done tt w).
Proof.
  intros Hnot. unfold transport_release, get.
  erewrite bind_done by reflexivity.
  rewrite bool_decide_eq_false_2 by exact Hnot. reflexivity.
Qed.

Lemma transport_unbind_unregistered w r :
  r ∉ implementations (display w) -> transport_unbind r w = ([], Done tt w).
Proof.
  intros Hnot. unfold transport_unbind, get.
  erewrite bind_done by reflexivity.
  rewrite bool_decide_eq_false_2 by exact Hnot. reflexivity.
Qed.

Lemma SurfaceInterface_destroyed_frame w s log w' :
  SurfaceInterface_destroyed s w = (log, Done tt w') ->
  log = [] /\ resource (d w') = resource (d w) /\ display w' = display w.
Proof.
  destruct (decide (destroyConnection (d w) = Some s)) as [Hconn|Hother].
  - rewrite (SurfaceInterface_destroyed_connected w s Hconn).
    intros [= <- <-]. auto.
  - unfold SurfaceInterface_destroyed, bind, get_d, ret.
    rewrite bool_decide_eq_false_2 by exact Hother.
    intros [= <- <-]. auto.
Qed.

(** What one action does to the stored handle and to the display, and
    where it posts its events, when it returns. *)
Lemma perform_handle a w log w' :
  handle_registered w ->
  perform a w = (log, Done tt w') ->
  handle_registered w'
  /\ Forall (fun c => forall r, event_target c = Some r ->
                        resource (d w') = Some r) log.
Proof.
  intros Hinv Hrun. destruct a; simpl in Hrun.
  - destruct (out_of_memory (display w)) eqn:Hoom.
    + rewrite (createInterfae_oom _ _ _ _ Hoom) in Hrun.
      injection Hrun as <- <-. split; [exact Hinv|].
      repeat constructor. discriminate.
    + destruct (createInterfae_allocated w client parentResource id Hoom)
        as (w1 & Hstep & Hd & Hdsp & Hposts).
      rewrite Hstep in Hrun. injection Hrun as <- <-. split.
      * intros r Hr. rewrite Hd in Hr. injection Hr as <-.
        rewrite Hdsp. simpl. split; [apply list_elem_of_here | reflexivity].
      * rewrite Hd. simpl. eapply Forall_impl; [exact Hposts|].
        intros c Hc r Hr. rewrite (Hc r Hr). reflexivity.
  - rewrite setKeymap_cases in Hrun.
    destruct (resource (d w)) as [r|] eqn:Hr; [|discriminate].
    injection Hrun as <- <-. split; [exact Hinv|].
    repeat constructor. intros r' [= <-]. exact Hr.
  - destruct (resource (d w)) as [r|] eqn:Hr.
    + destruct (setFocusedSurface_bound_state w r surface serial Hr)
        as (w1 & Hstep & _ & Hres1 & _ & Hdsp1 & _).
      rewrite Hstep in Hrun. injection Hrun as <- <-. split.
      * intros r' Hr'. rewrite Hdsp1. apply Hinv. congruence.
      * rewrite (setFocusedSurface_bound w r surface serial Hr).
        destruct (focusedSurface (d w)), surface; simpl;
          repeat constructor; try discriminate;
          intros r' [= <-]; exact Hres1.
    + rewrite (setFocusedSurface_unbound w surface serial Hr) in Hrun.
      destruct (focusedSurface (d w)), surface; try discriminate.
      injection Hrun as <- <-. split; [exact Hinv | constructor].
  - rewrite keyPressed_cases in Hrun.
    destruct (focusedSurface (d w)); [|discriminate].
    destruct (resource (d w)) as [r|] eqn:Hr; [|discriminate].
    injection Hrun as <- <-. split; [exact Hinv|].
    repeat constructor. intros r' [= <-]. exact Hr.
  - rewrite keyReleased_cases in Hrun.
    destruct (focusedSurface (d w)); [|discriminate].
    destruct (resource (d w)) as [r|] eqn:Hr; [|discriminate].
    injection Hrun as <- <-. split; [exact Hinv|].
    repeat constructor. intros r' [= <-]. exact Hr.
  - rewrite updateModifiers_cases in Hrun.
    destruct (focusedSurface (d w)); [|discriminate].
    destruct (resource (d w)) as [r|] eqn:Hr; [|discriminate].
    injection Hrun as <- <-. split; [exact Hinv|].
    repeat constructor. intros r' [= <-]. exact Hr.
  - destruct (decide (r ∈ implementations (display w))) as [Hin|Hnot].
    + rewrite (transport_release_registered _ _ Hin) in Hrun.
      injection Hrun as <- <-. split; [|constructor].
      intros r' Hr'. discriminate Hr'.
    + rewrite (transport_release_unregistered _ _ Hnot) in Hrun.
      injection Hrun as <- <-. split; [exact Hinv | constructor].
  - destruct (decide (r ∈ implementations (display w))) as [Hin|Hnot].
    + rewrite (transport_unbind_registered _ _ Hin) in Hrun.
      injection Hrun as <- <-. split; [|constructor].
      intros r' Hr'. discriminate Hr'.
    + rewrite (transport_unbind_unregistered _ _ Hnot) in Hrun.
      injection Hrun as <- <-. split; [exact Hinv | constructor].
  - destruct (SurfaceInterface_destroyed_frame _ _ _ _ Hrun) as (-> & Hres & Hdsp).
    split; [|constructor].
    intros r' Hr'. rewrite Hdsp. apply Hinv. congruence.
  - injection Hrun as <- <-. split; [|constructor].
    intros r' Hr'. apply (Hinv r'). exact Hr'.
Qed.

Lemma run_handle_registered acts : forall w log w',
  handle_registered w ->
  run acts w = (log, Done tt w') ->
  handle_registered w'.
Proof.
  induction acts as [|a acts IH]; intros w log w' Hinv Hrun.
  - injection Hrun as _ <-. exact Hinv.
  - simpl in Hrun. unfold bind in Hrun.
    destruct (perform a w) as [l1 [[] w1|f]] eqn:Ea; [|discriminate].
    destruct (run acts w1) as [l2 o2] eqn:Er. injection Hrun as _ ->.
    exact (IH _ _ _ (proj1 (perform_handle _ _ _ _ Hinv Ea)) Er).
Qed.

Lemma initial_handle_registered s dsp proc :
  handle_registered (initial s dsp proc).
Proof. intros r Hr. discriminate Hr. Qed.

Lemma perform_aborted_posts_nothing a w log f :
  perform a w = (log, Aborted f) ->
  Forall (fun c => event_target c = None) log.
Proof.
  intros Hrun. destruct a; simpl in Hrun.
  - destruct (out_of_memory (display w)) eqn:Hoom.
    + rewrite (createInterfae_oom _ _ _ _ Hoom) in Hrun. discriminate Hrun.
    + destruct (createInterfae_allocated w client parentResource id Hoom)
        as (w1 & Hstep & _).
      rewrite Hstep in Hrun. discriminate Hrun.
  - rewrite setKeymap_cases in Hrun.
    destruct (resource (d w)); [discriminate|].
    injection Hrun as <- _. constructor.
  - destruct (resource (d w)) as [r|] eqn:Hr.
    + destruct (setFocusedSurface_bound_state w r surface serial Hr)
        as (w1 & Hstep & _).
      rewrite Hstep in Hrun. discriminate Hrun.
    + rewrite (setFocusedSurface_unbound w surface serial Hr) in Hrun.
      destruct (focusedSurface (d w)), surface; try discriminate;
        injection Hrun as <- _; repeat constructor.
  - rewrite keyPressed_cases in Hrun.
    destruct (focusedSurface (d w)), (resource (d w)); try discriminate;
      injection Hrun as <- _; constructor.
  - rewrite keyReleased_cases in Hrun.
    destruct (focusedSurface (d w)), (resource (d w)); try discriminate;
      injection Hrun as <- _; constructor.
  - rewrite updateModifiers_cases in Hrun.
    destruct (focusedSurface (d w)), (resource (d w)); try discriminate;
      injection Hrun as <- _; constructor.
  - destruct (decide (r ∈ implementations (display w))) as [Hin|Hnot].
    + rewrite (transport_release_registered _ _ Hin) in Hrun. discriminate.
    + rewrite (transport_release_unregistered _ _ Hnot) in Hrun. discriminate.
  - destruct (decide (r ∈ implementations (display w))) as [Hin|Hnot].
    + rewrite (transport_unbind_registered _ _ Hin) in Hrun. discriminate.
    + rewrite (transport_unbind_unregistered _ _ Hnot) in Hrun. discriminate.
  - revert Hrun. unfold SurfaceInterface_destroyed, bind, get_d, ret.
    destruct (bool_decide (destroyConnection (d w) = Some s)); discriminate.
  - discriminate Hrun.
Qed.

(** X9: in every state a new binding can reach, the handle that
    [resource()] returns, if it is not null, is a resource of the
    keyboard interface that the display still knows as one of the
    binding: the unbind callback has nulled every handle whose resource
    is gone.  So the destructor makes at most one call, and if it makes
    one, it destroys a resource that has not been destroyed before. *)
Theorem reachable_handle_is_registered (s0 : SeatInterface) (dsp : Display)
    (proc : Process) (acts : list Action) (log : list Call) (w : World) :
  run acts (initial s0 dsp proc) = (log, Done tt w) ->
  (forall r, KeyboardInterface_resource w = Some r ->
     r ∈ implementations (display w)
     /\ resource_interface r = wl_keyboard_interface)
  /\ (count is_destroy (log_of (KeyboardInterface_destructor w)) <= 1)%nat
  /\ Forall (fun c => exists r, c = call_wl_resource_destroy r
                                /\ r ∈ implementations (display w))
            (log_of (KeyboardInterface_destructor w)).
Proof.
  intros Hrun.
  pose proof (run_handle_registered acts _ _ _
                (initial_handle_registered s0 dsp proc) Hrun) as Hinv.
  split; [exact Hinv|].
  destruct w as [[st foc conn res] dspw procw]. destruct res as [r|].
  - destruct (Hinv r eq_refl) as [Hin _]. simpl in Hin.
    split; [exec; unfold count; simpl; lia|].
    exec. repeat constructor. exists r. split; [reflexivity | exact Hin].
  - split; [exec; unfold count; simpl; lia | exec; constructor].
Qed.

Lemma reachable_handle_is_registered_witness :
  (forall r, KeyboardInterface_resource Scenario.bound = Some r ->
     r ∈ implementations (display Scenario.bound)
     /\ resource_interface r = wl_keyboard_interface)
  /\ (count is_destroy (log_of (KeyboardInterface_destructor Scenario.bound))
      <= 1)%nat
  /\ Forall (fun c => exists r, c = call_wl_resource_destroy r
                                /\ r ∈ implementations (display Scenario.bound))
            (log_of (KeyboardInterface_destructor Scenario.bound)).
Proof.
  apply (reachable_handle_is_registered Scenario.seat0 Scenario.display0
           Scenario.process0
           [do_createInterfae Scenario.C Scenario.seat_resource 7]
           [call_wl_keyboard_send_keymap Scenario.H
              WL_KEYBOARD_KEYMAP_FORMAT_XKB_V1 3 1024]
           Scenario.bound).
  reflexivity.
Defined.

(** X10: whatever a binding has been through since it was made, every
    event of a call that returns is posted on the resource that
    [resource()] gives after the call, a keyboard resource the display
    knows at that time; and a call that aborts has posted no event.  No
    event goes to a resource that was unbound or to one of another
    object. *)
Theorem events_only_on_registered_handle (s0 : SeatInterface) (dsp : Display)
    (proc : Process) (acts : list Action) (log : list Call) (w : World)
    (a : Action) :
  run acts (initial s0 dsp proc) = (log, Done tt w) ->
  match outcome_of (perform a w) with
  | Done _ w' =>
      Forall (fun c => forall r, event_target c = Some r ->
                KeyboardInterface_resource w' = Some r
                /\ r ∈ implementations (display w')
                /\ resource_interface r = wl_keyboard_interface)
             (log_of (perform a w))
  | Aborted _ =>
      Forall (fun c => event_target c = None) (log_of (perform a w))
  end.
Proof.
  intros Hrun.
  pose proof (run_handle_registered acts _ _ _
                (initial_handle_registered s0 dsp proc) Hrun) as Hinv.
  destruct (perform a w) as [l [[] w'|f]] eqn:Ea; cbn [outcome_of log_of fst snd].
  - destruct (perform_handle _ _ _ _ Hinv Ea) as [Hinv' Hposts].
    eapply Forall_impl; [exact Hposts|].
    intros c Hc r Hr. split; [exact (Hc r Hr)|]. exact (Hinv' r (Hc r Hr)).
  - exact (perform_aborted_posts_nothing _ _ _ _ Ea).
Qed.

Lemma events_only_on_registered_handle_witness :
  match outcome_of (perform (do_setFocusedSurface (Some Scenario.A) 10)
                            Scenario.bound) with
  | Done _ w' =>
      Forall (fun c => forall r, event_target c = Some r ->
                KeyboardInterface_resource w' = Some r
                /\ r ∈ implementations (display w')
                /\ resource_interface r = wl_keyboard_interface)
             (log_of (perform (do_setFocusedSurface (Some Scenario.A) 10)
                              Scenario.bound))
  | Aborted _ =>
      Forall (fun c => event_target c = None)
             (log_of (perform (do_setFocusedSurface (Some Scenario.A) 10)
                              Scenario.bound))
  end.
Proof.
  apply (events_only_on_registered_handle Scenario.seat0 Scenario.display0
           Scenario.process0
           [do_createInterfae Scenario.C Scenario.seat_resource 7]
           [call_wl_keyboard_send_keymap Scenario.H
              WL_KEYBOARD_KEYMAP_FORMAT_XKB_V1 3 1024]
           Scenario.bound (do_setFocusedSurface (Some Scenario.A) 10)).
  reflexivity.
Defined.

(** X11: [createInterfae] does not look at the handle the binding already
    has.  On a binding with a resource, a second [createInterfae] for
    another object stores the new resource over the old handle without
    destroying the old resource: the display still knows it, the
    destructor that follows destroys the new resource only, and the old
    one is still known to the display after that. *)
Theorem createInterfae_twice_keeps_first_resource (w : World)
    (r : wl_resource) (client : wl_client) (parentResource : wl_resource)
    (id : N) :
  resource (d w) = Some r ->
  r ∈ implementations (display w) ->
  out_of_memory (display w) = false ->
  keyboard_resource client parentResource id <> r ->
  exists w1 w2,
    outcome_of (createInterfae client parentResource id w) = Done tt w1
    /\ count is_destroy (log_of (createInterfae client parentResource id w))
       = 0%nat
    /\ KeyboardInterface_resource w1
       = Some (keyboard_resource client parentResource id)
    /\ r ∈ implementations (display w1)
    /\ KeyboardInterface_destructor w1
       = ([call_wl_resource_destroy (keyboard_resource client parentResource id)],
          Done tt w2)
    /\ r ∈ implementations (display w2).
Proof.
  intros Hr Hin Hoom Hne.
  rewrite (createInterfae_allocated_exact w client parentResource id Hoom).
  eexists. eexists. split; [reflexivity|].
  split; [unfold log_of, fst;
          destruct (isKeymapXkbCompatible (seat (d w))); reflexivity|].
  split; [reflexivity|].
  split; [simpl; apply list_elem_of_further, Hin|].
  split; [exec; reflexivity|]. simpl.
  unfold forget. apply list_elem_of_filter. split.
  - intros ->. apply Hne. reflexivity.
  - apply list_elem_of_further, Hin.
Qed.

Lemma createInterfae_twice_keeps_first_resource_witness :
  exists w1 w2,
    outcome_of (createInterfae Scenario.C Scenario.seat_resource 8 Scenario.bound)
    = Done tt w1
    /\ count is_destroy
         (log_of (createInterfae Scenario.C Scenario.seat_resource 8
                    Scenario.bound)) = 0%nat
    /\ KeyboardInterface_resource w1
       = Some (keyboard_resource Scenario.C Scenario.seat_resource 8)
    /\ Scenario.H ∈ implementations (display w1)
    /\ KeyboardInterface_destructor w1
       = ([call_wl_resource_destroy
             (keyboard_resource Scenario.C Scenario.seat_resource 8)],
          Done tt w2)
    /\ Scenario.H ∈ implementations (display w2).
Proof.
  apply (createInterfae_twice_keeps_first_resource Scenario.bound Scenario.H
           Scenario.C Scenario.seat_resource 8).
  - reflexivity.
  - compute_done.
  - reflexivity.
  - discriminate.
Defined.

(** ** After the resource is gone *)

(** X12: the unbind callback leaves the focus of the binding standing.
    On a binding that has the focus on a surface when the transport runs
    the callback, [focusedSurface()] still returns that surface
    afterwards, and every delivery to it fails without an event being
    sent: [setFocusedSurface], whatever surface it is called with, and
    [keyPressed] and [keyReleased] post on the null handle, and
    [updateModifiers] fails the assertion on the handle. *)
Theorem unbind_leaves_focus_without_handle (w : World) (r : wl_resource)
    (s : SurfaceInterface) :
  r ∈ implementations (display w) ->
  focusedSurface (d w) = Some s ->
  exists w',
    transport_unbind r w = ([], Done tt w')
    /\ KeyboardInterface_resource w' = None
    /\ KeyboardInterface_focusedSurface w' = Some s
    /\ (forall surface serial,
          setFocusedSurface surface serial w'
          = ([], Aborted NullPointerDereference))
    /\ (forall key serial,
          keyPressed key serial w' = ([], Aborted NullPointerDereference)
          /\ keyReleased key serial w' = ([], Aborted NullPointerDereference))
    /\ (forall depressed latched locked group serial,
          updateModifiers depressed latched locked group serial w'
          = ([], Aborted AssertionFailure)).
Proof.
  intros Hin Hfoc. eexists.
  split; [apply transport_unbind_registered, Hin|].
  split; [reflexivity|]. split; [exact Hfoc|].
  split; [|split].
  - intros surface serial.
    rewrite setFocusedSurface_unbound by reflexivity.
    simpl. rewrite Hfoc. reflexivity.
  - intros key serial. rewrite keyPressed_cases, keyReleased_cases.
    simpl. rewrite Hfoc. split; reflexivity.
  - intros depressed latched locked group serial.
    rewrite updateModifiers_cases. simpl. rewrite Hfoc. reflexivity.
Qed.

Lemma unbind_leaves_focus_without_handle_witness :
  exists w',
    transport_unbind Scenario.H Scenario.focused_A = ([], Done tt w')
    /\ KeyboardInterface_resource w' = None
    /\ KeyboardInterface_focusedSurface w' = Some Scenario.A
    /\ (forall surface serial,
          setFocusedSurface surface serial w'
          = ([], Aborted NullPointerDereference))
    /\ (forall key serial,
          keyPressed key serial w' = ([], Aborted NullPointerDereference)
          /\ keyReleased key serial w' = ([], Aborted NullPointerDereference))
    /\ (forall depressed latched locked group serial,
          updateModifiers depressed latched locked group serial w'
          = ([], Aborted AssertionFailure)).
Proof.
  apply (unbind_leaves_focus_without_handle Scenario.focused_A Scenario.H
           Scenario.A).
  - compute_done.
  - reflexivity.
Defined.

(** ** Descriptors *)

Lemma perform_process a w log w' :
  perform a w = (log, Done tt w') ->
  process w' = process w /\ count is_open log = count is_close log.
Proof.
  intros Hrun. destruct a; simpl in Hrun.
  - destruct (out_of_memory (display w)) eqn:Hoom.
    + rewrite (createInterfae_oom _ _ _ _ Hoom) in Hrun.
      injection Hrun as <- <-. split; reflexivity.
    + rewrite (createInterfae_allocated_exact w client parentResource id Hoom)
        in Hrun.
      injection Hrun as <- <-. split; [reflexivity|].
      destruct (isKeymapXkbCompatible (seat (d w))); reflexivity.
  - rewrite setKeymap_cases in Hrun.
    destruct (resource (d w)); [|discriminate].
    injection Hrun as <- <-. split; reflexivity.
  - destruct (resource (d w)) as [r|] eqn:Hr.
    + rewrite (setFocusedSurface_bound w r surface serial Hr) in Hrun.
      injection Hrun as <- <-. split; [reflexivity|].
      destruct (focusedSurface (d w)), surface; reflexivity.
    + rewrite (setFocusedSurface_unbound w surface serial Hr) in Hrun.
      destruct (focusedSurface (d w)), surface; try discriminate.
      injection Hrun as <- <-. split; reflexivity.
  - rewrite keyPressed_cases in Hrun.
    destruct (focusedSurface (d w)), (resource (d w)); try discriminate.
    injection Hrun as <- <-. split; reflexivity.
  - rewrite keyReleased_cases in Hrun.
    destruct (focusedSurface (d w)), (resource (d w)); try discriminate.
    injection Hrun as <- <-. split; reflexivity.
  - rewrite updateModifiers_cases in Hrun.
    destruct (focusedSurface (d w)), (resource (d w)); try discriminate.
    injection Hrun as <- <-. split; reflexivity.
  - destruct (decide (r ∈ implementations (display w))) as [Hin|Hnot].
    + rewrite (transport_release_registered _ _ Hin) in Hrun.
      injection Hrun as <- <-. split; reflexivity.
    + rewrite (transport_release_unregistered _ _ Hnot) in Hrun.
      injection Hrun as <- <-. split; reflexivity.
  - destruct (decide (r ∈ implementations (display w))) as [Hin|Hnot].
    + rewrite (transport_unbind_registered _ _ Hin) in Hrun.
      injection Hrun as <- <-. split; reflexivity.
    + rewrite (transport_unbind_unregistered _ _ Hnot) in Hrun.
      injection Hrun as <- <-. split; reflexivity.
  - revert Hrun. unfold SurfaceInterface_destroyed, bind, get_d, ret.
    destruct (bool_decide (destroyConnection (d w) = Some s));
      intros [= <- <-]; split; reflexivity.
  - injection Hrun as <- <-. split; reflexivity.
Qed.

(** X13: no sequence of calls and events leaks a descriptor.  When a run
    has gone through, the descriptor table of the process is what it was
    at the start, and the run has made as many [close] calls as [open]
    calls: the only descriptor the binding ever opens is the placeholder
    of [sendKeymap()], and it is closed in the same call. *)
Theorem run_leaks_no_descriptor (acts : list Action) (w : World)
    (log : list Call) (w' : World) :
  run acts w = (log, Done tt w') ->
  process w' = process w /\ count is_open log = count is_close log.
Proof.
  revert w log. induction acts as [|a acts IH]; intros w log Hrun.
  - injection Hrun as <- <-. split; reflexivity.
  - simpl in Hrun. unfold bind in Hrun.
    destruct (perform a w) as [l1 [[] w1|f]] eqn:Ea; [|discriminate].
    destruct (run acts w1) as [l2 o2] eqn:Er. injection Hrun as <- ->.
    destruct (perform_process _ _ _ _ Ea) as [Hp1 Hc1].
    destruct (IH _ _ Er) as [Hp2 Hc2].
    split; [congruence|]. rewrite !count_app. lia.
Qed.

Lemma run_leaks_no_descriptor_witness :
  process Scenario.focused_A
  = process (initial Scenario.seat1 Scenario.display0 Scenario.process0)
  /\ count is_open
       [call_open "/dev/null" 4;
        call_wl_keyboard_send_keymap Scenario.H
          WL_KEYBOARD_KEYMAP_FORMAT_NO_KEYMAP 4 0;
        call_close 4;
        call_connect_destroyed Scenario.A;
        call_wl_keyboard_send_enter Scenario.H 10
          (SurfaceInterface_resource Scenario.A) [30%N; 31%N];
        call_wl_keyboard_send_modifiers Scenario.H 9 1 0 2 0]
     = count is_close
         [call_open "/dev/null" 4;
          call_wl_keyboard_send_keymap Scenario.H
            WL_KEYBOARD_KEYMAP_FORMAT_NO_KEYMAP 4 0;
          call_close 4;
          call_connect_destroyed Scenario.A;
          call_wl_keyboard_send_enter Scenario.H 10
            (SurfaceInterface_resource Scenario.A) [30%N; 31%N];
          call_wl_keyboard_send_modifiers Scenario.H 9 1 0 2 0].
Proof.
  apply (run_leaks_no_descriptor
           [do_createInterfae Scenario.C Scenario.seat_resource 7;
            seat_changed Scenario.seat0;
            do_setFocusedSurface (Some Scenario.A) 10]
           (initial Scenario.seat1 Scenario.display0 Scenario.process0)).
  vm_compute. reflexivity.
Defined.

(** ** Release, disconnect and destruction *)

(** X14: a [release] request followed by the loss of the resource has the
    same effect as the loss of the resource alone, for a resource of the
    binding and for any other: the unbind callback that runs the second
    time finds the handle null already and sets it to null again. *)
Theorem release_then_gone_same_as_gone (w : World) (r : wl_resource) :
  run [client_release r; client_gone r] w = run [client_gone r] w.
Proof.
  destruct (decide (r ∈ implementations (display w))) as [Hin|Hnot].
  - simpl.
    rewrite (bind_done _ _ _ _ _ _ (transport_release_registered w r Hin)).
    assert (Hin' : r ∈ implementations (display (with_d (set_resource None) w)))
      by exact Hin.
    rewrite (bind_done _ _ _ _ _ _
               (transport_unbind_registered (with_d (set_resource None) w) r Hin')).
    rewrite (bind_done _ _ _ _ _ _ (transport_unbind_registered w r Hin)).
    reflexivity.
  - simpl.
    rewrite (bind_done _ _ _ _ _ _ (transport_release_unregistered w r Hnot)).
    rewrite !(bind_done _ _ _ _ _ _ (transport_unbind_unregistered w r Hnot)).
    reflexivity.
Qed.

Lemma perform_never_destroys a w :
  count is_destroy (log_of (perform a w)) = 0%nat.
Proof.
  destruct a; simpl.
  - destruct (out_of_memory (display w)) eqn:Hoom.
    + rewrite (createInterfae_oom _ _ _ _ Hoom). reflexivity.
    + rewrite (createInterfae_allocated_exact w client parentResource id Hoom).
      unfold log_of, fst.
      destruct (isKeymapXkbCompatible (seat (d w))); reflexivity.
  - rewrite setKeymap_cases. destruct (resource (d w)); reflexivity.
  - destruct (resource (d w)) as [r|] eqn:Hr.
    + rewrite (setFocusedSurface_bound w r surface serial Hr).
      destruct (focusedSurface (d w)), surface; reflexivity.
    + rewrite (setFocusedSurface_unbound w surface serial Hr).
      destruct (focusedSurface (d w)), surface; reflexivity.
  - rewrite keyPressed_cases.
    destruct (focusedSurface (d w)), (resource (d w)); reflexivity.
  - rewrite keyReleased_cases.
    destruct (focusedSurface (d w)), (resource (d w)); reflexivity.
  - rewrite updateModifiers_cases.
    destruct (focusedSurface (d w)), (resource (d w)); reflexivity.
  - destruct (decide (r ∈ implementations (display w))) as [Hin|Hnot].
    + rewrite (transport_release_registered _ _ Hin). reflexivity.
    + rewrite (transport_release_unregistered _ _ Hnot). reflexivity.
  - destruct (decide (r ∈ implementations (display w))) as [Hin|Hnot].
    + rewrite (transport_unbind_registered _ _ Hin). reflexivity.
    + rewrite (transport_unbind_unregistered _ _ Hnot). reflexivity.
  - unfold SurfaceInterface_destroyed, bind, get_d, ret.
    destruct (bool_decide (destroyConnection (d w) = Some s)); reflexivity.
  - reflexivity.
Qed.

Lemma log_of_bind {A B} (m : Exec A) (k : A -> Exec B) w :
  log_of (bind m k w)
  = match outcome_of (m w) with
    | Done a w' => log_of (m w) ++ log_of (k a w')
    | Aborted _ => log_of (m w)
    end.
Proof.
  unfold bind. destruct (m w) as [l [a w'|f]]; [|reflexivity].
  simpl. destruct (k a w'); reflexivity.
Qed.

(** X15: while a binding lives it never destroys a resource: whatever
    its owner calls and whatever the client, the transport, the surfaces
    and the seat do, and whether the run goes through or aborts, the log
    holds no [wl_resource_destroy].  In particular neither the release
    request nor the unbind callback destroys the resource; the destructor
    is the only place that does. *)
Theorem run_never_destroys (acts : list Action) (w : World) :
  count is_destroy (log_of (run acts w)) = 0%nat.
Proof.
  revert w. induction acts as [|a acts IH]; intros w; [reflexivity|].
  simpl. rewrite log_of_bind.
  destruct (outcome_of (perform a w)) as [[] w1|f].
  - rewrite count_app, perform_never_destroys, IH. reflexivity.
  - apply perform_never_destroys.
Qed.

(** ** The keymap comes first *)

Lemma first_event_app log1 log2 :
  first_event (log1 ++ log2)
  = match first_event log1 with
    | Some c => Some c
    | None => first_event log2
    end.
Proof.
  unfold first_event. induction log1 as [|c log1 IH]; [reflexivity|].
  simpl. destruct (is_set (event_target c)); [reflexivity | exact IH].
Qed.

(** What one action does on a binding without a resource: either it is
    the [createInterfae] that gets a resource, and its first event is the
    keymap; or it posts nothing and the binding has no resource after
    it. *)
Lemma perform_without_resource a w :
  resource (d w) = None ->
  (exists c, first_event (log_of (perform a w)) = Some c /\ is_keymap c = true)
  \/ (first_event (log_of (perform a w)) = None
      /\ forall u w', outcome_of (perform a w) = Done u w' ->
                      resource (d w') = None).
Proof.
  intros Hr. destruct a; simpl.
  - destruct (out_of_memory (display w)) eqn:Hoom.
    + right. rewrite (createInterfae_oom _ _ _ _ Hoom). split; [reflexivity|].
      intros u w' [= _ <-]. exact Hr.
    + left. rewrite (createInterfae_allocated_exact w client parentResource id Hoom).
      unfold log_of, fst.
      destruct (isKeymapXkbCompatible (seat (d w)));
        eexists; split; reflexivity.
  - right. rewrite setKeymap_cases, Hr. split; [reflexivity | discriminate].
  - right. rewrite (setFocusedSurface_unbound w surface serial Hr).
    destruct (focusedSurface (d w)), surface;
      (split; [reflexivity|]); try discriminate.
    intros u w' [= _ <-]. exact Hr.
  - right. rewrite keyPressed_cases, Hr.
    destruct (focusedSurface (d w)); split; (reflexivity || discriminate).
  - right. rewrite keyReleased_cases, Hr.
    destruct (focusedSurface (d w)); split; (reflexivity || discriminate).
  - right. rewrite updateModifiers_cases, Hr.
    destruct (focusedSurface (d w)); split; (reflexivity || discriminate).
  - right. destruct (decide (r ∈ implementations (display w))) as [Hin|Hnot].
    + rewrite (transport_release_registered _ _ Hin).
      split; [reflexivity|]. intros u w' [= _ <-]. reflexivity.
    + rewrite (transport_release_unregistered _ _ Hnot).
      split; [reflexivity|]. intros u w' [= _ <-]. exact Hr.
  - right. destruct (decide (r ∈ implementations (display w))) as [Hin|Hnot].
    + rewrite (transport_unbind_registered _ _ Hin).
      split; [reflexivity|]. intros u w' [= _ <-]. reflexivity.
    + rewrite (transport_unbind_unregistered _ _ Hnot).
      split; [reflexivity|]. intros u w' [= _ <-]. exact Hr.
  - right. unfold SurfaceInterface_destroyed, bind, get_d, ret.
    destruct (bool_decide (destroyConnection (d w) = Some s));
      (split; [reflexivity|]); intros u w' [= _ <-]; exact Hr.
  - right. split; [reflexivity|]. intros u w' [= _ <-]. exact Hr.
Qed.

Lemma run_without_resource acts : forall w,
  resource (d w) = None ->
  match first_event (log_of (run acts w)) with
  | Some c => is_keymap c = true
  | None => True
  end.
Proof.
  induction acts as [|a acts IH]; intros w Hr; [exact I|].
  simpl. rewrite log_of_bind.
  destruct (perform_without_resource a w Hr) as [(c & Hc & Hk)|[Hnone Hnext]].
  - destruct (outcome_of (perform a w)) as [[] w1|f].
    + rewrite first_event_app, Hc. exact Hk.
    + rewrite Hc. exact Hk.
  - destruct (outcome_of (perform a w)) as [[] w1|f] eqn:Eo.
    + rewrite first_event_app, Hnone. apply IH. exact (Hnext _ _ eq_refl).
    + rewrite Hnone. exact I.
Qed.

(** X16: the first event a binding ever posts is a keymap event.  In
    every run of a new binding, through or aborted, no enter, leave,
    modifiers or key event is posted before the keymap event of the
    [createInterfae] that gave the binding its resource. *)
Theorem keymap_is_first_event (s0 : SeatInterface) (dsp : Display)
    (proc : Process) (acts : list Action) :
  match first_event (log_of (run acts (initial s0 dsp proc))) with
  | Some c => is_keymap c = true
  | None => True
  end.
Proof. apply run_without_resource. reflexivity. Qed.
